(** * rqda-pymod: the document manager over its [files] table

    A shallow embedding of [core/document_manager.py], of the parts of
    [db/connection.py] it runs on, and of the upload handler of [app.py].

    - Python [str] values are lists of Unicode code points; [encode_utf8]
      is [str.encode('utf-8')], which raises on a lone surrogate.
    - The [files] table of [create_tables] is a finite map from the primary
      key [id] to the other seven columns.
    - [_format_file_size] works on Python numbers: an [int] until the first
      [/= 1024.0], a binary64 [float] afterwards. *)

From Stdlib Require Import ZArith String Ascii List Lia Sorted Permutation.
From Stdlib Require Import DecimalString.
From stdpp Require Import base option list strings gmap sorting.

Open Scope Z_scope.

(** ** Python values *)

(** A Python [str]: its code points, each below [0x110000]. *)
Definition pystr := list Z.

(** What a call yields: a value, or a raised exception. *)
Inductive exn :=
  | UnicodeEncodeError
  | UnicodeDecodeError
  | OverflowError
  | IndexError
  | KeyError
  | TypeError
  | AttributeError
  | ValueError
  | ResourceClosedError
  | DatabaseError (code : Z).

Inductive result (A : Type) :=
  | Ok (a : A)
  | Raise (e : exn).
Arguments Ok {A} a.
Arguments Raise {A} e.

Definition bind {A B} (r : result A) (k : A -> result B) : result B :=
  match r with
  | Ok a => k a
  | Raise e => Raise e
  end.

Notation "'let!' x ':=' r 'in' k" := (bind r (fun x => k))
  (at level 10, x name, r at level 100, k at level 200).

(** ** [str.encode('utf-8')] *)

Definition is_surrogate (c : Z) : bool := (55296 <=? c) && (c <=? 57343).

(** The bytes of one code point. *)
Definition encode_code_point (c : Z) : result (list Z) :=
  if c <? 128 then Ok [c]
  else if c <? 2048 then
    Ok [Z.lor 192 (Z.shiftr c 6); Z.lor 128 (Z.land c 63)]
  else if c <? 65536 then
    if is_surrogate c then Raise UnicodeEncodeError
    else Ok [Z.lor 224 (Z.shiftr c 12);
             Z.lor 128 (Z.land (Z.shiftr c 6) 63);
             Z.lor 128 (Z.land c 63)]
  else
    Ok [Z.lor 240 (Z.shiftr c 18);
        Z.lor 128 (Z.land (Z.shiftr c 12) 63);
        Z.lor 128 (Z.land (Z.shiftr c 6) 63);
        Z.lor 128 (Z.land c 63)].

Fixpoint encode_utf8 (s : pystr) : result (list Z) :=
  match s with
  | [] => Ok []
  | c :: rest =>
      let! b := encode_code_point c in
      let! bs := encode_utf8 rest in
      Ok (b ++ bs)
  end.

(** [len(b)] of a [bytes] value. *)
Definition len {A} (l : list A) : Z := Z.of_nat (length l).

(** The UTF-8 byte length of a string, as the encoding standard gives it:
    one to four bytes per code point, by its magnitude.  This definition
    does not go through [encode_utf8]. *)
Definition utf8_width (c : Z) : Z :=
  if c <? 128 then 1 else if c <? 2048 then 2 else if c <? 65536 then 3 else 4.

Definition utf8_byte_length (s : pystr) : Z :=
  fold_right (fun c n => utf8_width c + n) 0 s.

Definition encodable (s : pystr) : Prop := Forall (fun c => is_surrogate c = false) s.

(** ** Python numbers

    A binary64 [float] is kept as the dyadic rational [num / 2 ^ shift]
    it denotes.  The only float operations of the program are the
    conversion of an [int], division by [1024.0], comparison with [1024]
    and formatting; on the values that reach them each is exact, so the
    rational is the float. *)

Record float := mkfloat { num : Z; shift : Z }.

Inductive pynum :=
  | PyInt (n : Z)
  | PyFloat (x : float).

(** A natural number rounded to 53 significant bits, ties to the even
    significand. *)
Definition round_to_53_bits (a : Z) : Z :=
  let k := Z.log2 a in
  if k <? 53 then a
  else
    let s := k - 52 in
    let q := Z.shiftr a s in
    let r := Z.land a (Z.ones s) in
    let half := Z.shiftl 1 (s - 1) in
    let q' := if (half <? r) || ((r =? half) && Z.odd q) then q + 1 else q in
    Z.shiftl q' s.

(** The conversion of an [int] operand: the nearest binary64, or
    [OverflowError] when that would be [2 ^ 1024] or more. *)
Definition int_to_float (n : Z) : result float :=
  let v := round_to_53_bits (Z.abs n) in
  if Z.shiftl 1 1024 <=? v then Raise OverflowError
  else Ok (mkfloat (Z.sgn n * v) 0).

Definition to_float (v : pynum) : result float :=
  match v with
  | PyInt n => int_to_float n
  | PyFloat x => Ok x
  end.

(** [v / 1024.0]: the left operand is converted first.  Dividing by a
    power of two keeps the significand; the loop divides values of 1024
    or more only, so nothing underflows. *)
Definition truediv_1024 (v : pynum) : result float :=
  let! x := to_float v in
  Ok (mkfloat (num x) (shift x + 10)).

(** [v >= 1024]; Python compares an [int] and a [float] by value. *)
Definition ge_1024 (v : pynum) : bool :=
  match v with
  | PyInt n => 1024 <=? n
  | PyFloat x => 1024 * 2 ^ shift x <=? num x
  end.

(** Decimal digits of a natural number. *)
Definition decimal (n : Z) : string :=
  NilZero.string_of_uint (N.to_uint (Z.to_N n)).

(** The nearest integer to [a / b], ties to even ([0 <= a], [0 < b]). *)
Definition round_half_even (a b : Z) : Z :=
  let q := a / b in
  let r := a mod b in
  if (b <? 2 * r) || ((2 * r =? b) && Z.odd q) then q + 1 else q.

Definition sign (x : float) : string :=
  if num x <? 0 then "-"%string else ""%string.

(** [f"{x:.1f}"] for a float: the exact value rounded to tenths. *)
Definition format_float_1f (x : float) : string :=
  let t := round_half_even (Z.abs (num x) * 10) (2 ^ shift x) in
  (sign x ++ decimal (t / 10) ++ "." ++ decimal (t mod 10))%string.

(** [f"{v:.1f}"]: an [int] is converted to [float] by the [f] format. *)
Definition format_1f (v : pynum) : result string :=
  let! x := to_float v in
  Ok (format_float_1f x).

(** ** [DocumentManager._format_file_size] *)

Definition size_names : list string := ["B"; "KB"; "MB"; "GB"]%string.

(** [l[i]]: a negative index counts from the end. *)
Definition index {A} (l : list A) (i : Z) : result A :=
  let j := if i <? 0 then i + len l else i in
  if j <? 0 then Raise IndexError
  else match l !! Z.to_nat j with
       | Some a => Ok a
       | None => Raise IndexError
       end.

(** The guard [size_bytes >= 1024 and i < len(size_names) - 1]. *)
Definition loop_guard (size_bytes : pynum) (i : Z) : bool :=
  ge_1024 size_bytes && (i <? len size_names - 1).

(** The [while] loop.  Each turn raises [i], so with
    [len(size_names) - 1] turns of fuel the loop ends by its guard
    ([scale_loop_exits]). *)
Fixpoint scale_loop (fuel : nat) (size_bytes : pynum) (i : Z) : result (pynum * Z) :=
  match fuel with
  | O => Ok (size_bytes, i)
  | S fuel' =>
      if loop_guard size_bytes i then
        let! x := truediv_1024 size_bytes in
        scale_loop fuel' (PyFloat x) (i + 1)
      else Ok (size_bytes, i)
  end.

Definition _format_file_size (size_bytes : Z) : result string :=
  if size_bytes =? 0 then Ok "0B"%string
  else
    let! st := scale_loop (Z.to_nat (len size_names - 1)) (PyInt size_bytes) 0 in
    let! digits := format_1f (fst st) in
    let! unit := index size_names (snd st) in
    Ok (digits ++ unit)%string.

(** ** The [files] table ([DatabaseManager.create_tables])

    [id INT PRIMARY KEY AUTO_INCREMENT] is the key of the map; the other
    columns are the fields of a row, in the order of the schema.  Columns
    declared without [NOT NULL] hold an [option]. *)

Module File.
Record row := mk {
  name : pystr;                 (* VARCHAR(255) NOT NULL *)
  content : option pystr;       (* TEXT *)
  date_created : Z;             (* TIMESTAMP DEFAULT CURRENT_TIMESTAMP *)
  date_modified : Z;            (* ... ON UPDATE CURRENT_TIMESTAMP *)
  owner : option pystr;         (* VARCHAR(100) *)
  memo : option pystr;          (* TEXT *)
  size : Z                      (* INT DEFAULT 0 *)
}.
End File.

Global Instance row_eq_dec : EqDecision File.row.
Proof. solve_decision. Defined.

(** The server: the rows, the [AUTO_INCREMENT] counter and the reading of
    [CURRENT_TIMESTAMP]. *)
Record database := mkdb {
  files : gmap Z File.row;
  auto_increment : Z;
  now : Z
}.

(** Values of result columns and of bound parameters. *)
Inductive value :=
  | Null
  | Int (n : Z)
  | Text (s : pystr)
  | Timestamp (t : Z).

Definition nullable (o : option pystr) : value :=
  match o with
  | Some s => Text s
  | None => Null
  end.

(** The [SET] items [update_file] can put in its statement. *)
Inductive assignment :=
  | SetName (v : pystr)           (* "name = :name" *)
  | SetContent (v : pystr)        (* "content = :content" *)
  | SetSize (v : Z)               (* "size = :size" *)
  | SetMemo (v : pystr).          (* "memo = :memo" *)

(** The statements of [document_manager.py], with their parameters bound. *)
Inductive statement :=
  | InsertFile (name content : pystr) (owner memo : option pystr) (size : Z)
  | SelectFile (file_id : Z)
  | SelectSummaries
  | UpdateFile (updates : list assignment) (file_id : Z)
  | DeleteFile (file_id : Z)
  | SearchFiles (search_term : pystr).

(** What [conn.execute] hands back. *)
Record cursor := mkcursor {
  fetchall : list (list value);
  rowcount : Z;
  lastrowid : Z
}.

Definition fetchone (c : cursor) : option (list value) := head (fetchall c).

(** ** [LIKE] *)

Definition percent : Z := 37.
Definition underscore : Z := 95.
Definition backslash : Z := 92.

Section Like.
(** The collation of the column: two characters compare equal when
    their weights are equal ([utf8mb4]'s default collations are [_ci]). *)
Variable weight : Z -> Z.

Definition same_char (a b : Z) : bool := weight a =? weight b.

Definition literal (c : Z) (k : pystr -> bool) (t : pystr) : bool :=
  match t with
  | [] => false
  | d :: t' => same_char c d && k t'
  end.

(** [t LIKE p]: [%] stands for any run of characters, [_] for any one
    character, and a backslash takes the next pattern character
    literally. *)
Fixpoint like (p : pystr) : pystr -> bool :=
  match p with
  | [] => fun t => match t with [] => true | _ :: _ => false end
  | c :: p' =>
      if c =? percent then
        fix any_run (t : pystr) : bool :=
          like p' t || match t with [] => false | _ :: t' => any_run t' end
      else if c =? underscore then
        fun t => match t with [] => false | _ :: t' => like p' t' end
      else if c =? backslash then
        match p' with
        | [] => literal c (like p')
        | d :: p'' => literal d (like p'')
        end
      else literal c (like p')
  end.

(** [column LIKE :p] on a nullable column: [NULL] is not selected. *)
Definition like_column (column : option pystr) (p : pystr) : bool :=
  match column with
  | Some t => like p t
  | None => false
  end.
End Like.

(** ** A sample server

    A collation that folds the ASCII letters, a server that rejects
    nothing, and a table of two files, to run the operations on. *)

Definition ascii_ci (c : Z) : Z :=
  if (65 <=? c) && (c <=? 90) then c + 32 else c.

Definition no_fault (q : statement) (d : database) : option exn := None.

(** [id 1]: "abc" holding "x", three bytes; [id 2]: "Todo" holding "é€", five
    bytes, with a memo, created later. *)
Definition sample_files : gmap Z File.row :=
  <[2 := File.mk [84; 111; 100; 111] (Some [233; 8364]) 20 20 None (Some [109]) 5]>
    (<[1 := File.mk [97; 98; 99] (Some [120; 121; 122]) 10 10 None None 3]> ∅).

Definition sample_db : database := mkdb sample_files 3 30.

Definition abc_row : File.row :=
  File.mk [97; 98; 99] (Some [120; 121; 122]) 10 10 None None 3.

Definition todo_row : File.row :=
  File.mk [84; 111; 100; 111] (Some [233; 8364]) 20 20 None (Some [109]) 5.

(** A server that has gone away: every statement raises error 2006. *)
Definition gone_away (q : statement) (d : database) : option exn :=
  Some (DatabaseError 2006).

(** The selection modes of a shiny that knows no mode ["single"]. *)
Definition row_modes (mode : string) : bool :=
  bool_decide (mode ∈ ["none"; "row"; "rows"]%string).

(** Reading as it goes when the path is a [str]: there is no
    [read_text] to call. *)
Definition str_read_text (path : pystr) : result pystr := Raise AttributeError.

(** Uploaded files whose text is their path; the empty path cannot be
    read. *)
Definition sample_read_text (path : pystr) : result pystr :=
  match path with
  | [] => Raise UnicodeDecodeError
  | _ :: _ => Ok path
  end.

(** ** Programs over a state that may raise *)

Definition prog (S A : Type) : Type := S -> result A * S.

Definition ret {S A} (a : A) : prog S A := fun s => (Ok a, s).
Definition lift {S A} (r : result A) : prog S A := fun s => (r, s).

Definition bind_prog {S A B} (m : prog S A) (k : A -> prog S B) : prog S B :=
  fun s =>
    match m s with
    | (Ok a, s') => k a s'
    | (Raise e, s') => (Raise e, s')
    end.

Notation "'do!' x ':=' m 'in' k" := (bind_prog m (fun x => k))
  (at level 10, x name, m at level 100, k at level 200).

Section Server.
(** The server either rejects a statement, which raises in the client and
    changes nothing, or performs it as written.  [server_fault] says
    which, from the statement and the state it meets: a violated column
    constraint, a lost connection, ...  *)
Variable server_fault : statement -> database -> option exn.

(** The collation of the text columns. *)
Variable weight : Z -> Z.

(** *** Result rows *)

(** [SELECT *]: the columns in schema order. *)
Definition select_star (file_id : Z) (r : File.row) : list value :=
  [Int file_id; Text (File.name r); nullable (File.content r);
   Timestamp (File.date_created r); Timestamp (File.date_modified r);
   nullable (File.owner r); nullable (File.memo r); Int (File.size r)].

Definition yes : pystr := [89; 101; 115].
Definition no : pystr := [78; 111].

(** [SELECT id, name, date_created, size, CASE WHEN memo IS NOT NULL
    THEN 'Yes' ELSE 'No' END as has_memo]. *)
Definition select_summary (e : Z * File.row) : list value :=
  [Int e.1; Text (File.name e.2); Timestamp (File.date_created e.2);
   Int (File.size e.2);
   Text (match File.memo e.2 with Some _ => yes | None => no end)].

(** [SELECT id, name, date_created, size]. *)
Definition select_found (e : Z * File.row) : list value :=
  [Int e.1; Text (File.name e.2); Timestamp (File.date_created e.2);
   Int (File.size e.2)].

(** [ORDER BY date_created DESC].  SQL leaves the order of rows with equal
    keys open; here they come out as the sort leaves them. *)
Definition newer_first (a b : Z * File.row) : Prop :=
  File.date_created b.2 <= File.date_created a.2.

Global Instance newer_first_dec a b : Decision (newer_first a b).
Proof. unfold newer_first. apply _. Defined.

Definition order_by_date_created_desc (l : list (Z * File.row)) : list (Z * File.row) :=
  merge_sort newer_first l.

(** [WHERE name LIKE :search_term OR content LIKE :search_term]. *)
Definition where_like (p : pystr) (e : Z * File.row) : bool :=
  like weight p (File.name e.2) || like_column weight (File.content e.2) p.

(** *** Statements *)

Definition assign (r : File.row) (a : assignment) : File.row :=
  match a with
  | SetName v =>
      File.mk v (File.content r) (File.date_created r) (File.date_modified r)
              (File.owner r) (File.memo r) (File.size r)
  | SetContent v =>
      File.mk (File.name r) (Some v) (File.date_created r) (File.date_modified r)
              (File.owner r) (File.memo r) (File.size r)
  | SetSize v =>
      File.mk (File.name r) (File.content r) (File.date_created r) (File.date_modified r)
              (File.owner r) (File.memo r) v
  | SetMemo v =>
      File.mk (File.name r) (File.content r) (File.date_created r) (File.date_modified r)
              (File.owner r) (Some v) (File.size r)
  end.

Definition touch (t : Z) (r : File.row) : File.row :=
  File.mk (File.name r) (File.content r) (File.date_created r) t
          (File.owner r) (File.memo r) (File.size r).

(** [UPDATE files SET ... WHERE id = :file_id] on the matched row:
    [date_modified] takes the current time when some other column
    changes its value, and stays when none does. *)
Definition update_row (updates : list assignment) (t : Z) (r : File.row) : File.row :=
  let r' := foldl assign r updates in
  if decide (r' = r) then r else touch t r'.

(** A statement the server accepts.  The connector asks for the number of
    rows matched, so [rowcount] counts the rows the [WHERE] found. *)
Definition perform (q : statement) (d : database) : cursor * database :=
  match q with
  | InsertFile name content owner memo size =>
      let file_id := auto_increment d in
      let r := File.mk name (Some content) (now d) (now d) owner memo size in
      (mkcursor [] 1 file_id,
       mkdb (<[file_id := r]> (files d)) (file_id + 1) (now d))
  | SelectFile file_id =>
      match files d !! file_id with
      | Some r => (mkcursor [select_star file_id r] 1 0, d)
      | None => (mkcursor [] 0 0, d)
      end
  | SelectSummaries =>
      let rows := select_summary <$> order_by_date_created_desc (map_to_list (files d)) in
      (mkcursor rows (len rows) 0, d)
  | UpdateFile updates file_id =>
      match files d !! file_id with
      | Some r =>
          (mkcursor [] 1 0,
           mkdb (<[file_id := update_row updates (now d) r]> (files d))
                (auto_increment d) (now d))
      | None => (mkcursor [] 0 0, d)
      end
  | DeleteFile file_id =>
      match files d !! file_id with
      | Some _ =>
          (mkcursor [] 1 0, mkdb (delete file_id (files d)) (auto_increment d) (now d))
      | None => (mkcursor [] 0 0, d)
      end
  | SearchFiles search_term =>
      let found := filter (fun e => where_like search_term e = true)
                          (map_to_list (files d)) in
      let rows := select_found <$> order_by_date_created_desc found in
      (mkcursor rows (len rows) 0, d)
  end.

(** *** Connections ([db/connection.py], SQLAlchemy's [Connection])

    A connection works on its own view of the data; [commit] publishes
    the view, and closing the connection drops what was not committed. *)
Record connection := mkconn {
  committed : database;
  working : database
}.

Definition connect (d : database) : connection := mkconn d d.

(** [conn.execute(sa.text(query), params)]. *)
Definition execute (q : statement) : prog connection cursor :=
  fun c =>
    match server_fault q (working c) with
    | Some e => (Raise e, c)
    | None =>
        let '(cur, d) := perform q (working c) in
        (Ok cur, mkconn (committed c) d)
    end.

(** [conn.commit()]. *)
Definition commit : prog connection unit :=
  fun c => (Ok tt, mkconn (working c) (working c)).

(** [session.rollback()]. *)
Definition rollback : prog connection unit :=
  fun c => (Ok tt, mkconn (committed c) (committed c)).

(** Closing releases the connection; work in progress is rolled back. *)
Definition close (c : connection) : database := committed c.

(** [with self.engine.connect() as conn: body]: the connection is closed
    when the block is left, by [return] or by an exception. *)
Definition with_connect {A} (body : prog connection A) : prog database A :=
  fun d =>
    let '(r, c) := body (connect d) in
    (r, close c).

(** [DatabaseManager.get_session]:
    [try: yield session; session.commit()]
    [except Exception as e: session.rollback(); raise e]
    [finally: session.close()]. *)
Definition get_session {A} (body : prog connection A) : prog database A :=
  fun d =>
    match body (connect d) with
    | (Ok a, c) =>
        let '(_, c') := commit c in
        (Ok a, close c')
    | (Raise e, c) =>
        let '(_, c') := rollback c in
        (Raise e, close c')
    end.





(** ** [DocumentManager] ([core/document_manager.py]) *)

Definition create_file (name content : pystr) (owner memo : option pystr)
  : prog database Z :=
  do! encoded := lift (encode_utf8 content) in
  let size := len encoded in
  let query := InsertFile name content owner memo size in
  with_connect (
    do! result := execute query in
    do! _ := commit in
    ret (lastrowid result)).

(** [if row:] on what [fetchone] gave: [None] and an empty row are
    false. *)
Definition truthy (row : option (list value)) : option (list value) :=
  match row with
  | Some (v :: vs) => Some (v :: vs)
  | _ => None
  end.

Definition get_file (file_id : Z) : prog database (option (gmap string value)) :=
  let query := SelectFile file_id in
  do! row := with_connect (
    do! result := execute query in
    ret (fetchone result)) in
  match truthy row with
  | Some row =>
      do! c0 := lift (index row 0) in
      do! c1 := lift (index row 1) in
      do! c2 := lift (index row 2) in
      do! c3 := lift (index row 3) in
      do! c4 := lift (index row 4) in
      do! c5 := lift (index row 5) in
      do! c6 := lift (index row 6) in
      do! c7 := lift (index row 7) in
      ret (Some (list_to_map
        [("id", c0); ("name", c1); ("content", c2); ("date_created", c3);
         ("date_modified", c4); ("owner", c5); ("memo", c6); ("size", c7)]%string))
  | None => ret None
  end.

(** A [pandas.DataFrame]: its column labels and its rows. *)
Record DataFrame := mkframe {
  columns : list string;
  data : list (list value)
}.

Fixpoint map_result {A B} (f : A -> result B) (l : list A) : result (list B) :=
  match l with
  | [] => Ok []
  | a :: l' =>
      let! b := f a in
      let! bs := map_result f l' in
      Ok (b :: bs)
  end.

Fixpoint column_index (label : string) (labels : list string) : result nat :=
  match labels with
  | [] => Raise KeyError
  | l :: labels' =>
      if decide (l = label) then Ok O
      else let! i := column_index label labels' in Ok (S i)
  end.

(** [f] on cell [i] of a row. *)
Definition apply_cell (i : nat) (f : value -> result value) (row : list value)
  : result (list value) :=
  match row !! i with
  | Some v => let! v' := f v in Ok (<[i := v']> row)
  | None => Raise IndexError
  end.

(** [df[label] = df[label].apply(f)]. *)
Definition apply_column (label : string) (f : value -> result value) (df : DataFrame)
  : result DataFrame :=
  let! i := column_index label (columns df) in
  let! rows := map_result (apply_cell i f) (data df) in
  Ok (mkframe (columns df) rows).

Definition pystr_of_string (s : string) : pystr :=
  (fun a => Z.of_N (N_of_ascii a)) <$> list_ascii_of_string s.

(** [_format_file_size] on a cell of the [size] column. *)
Definition format_size_cell (v : value) : result value :=
  match v with
  | Int n => let! s := _format_file_size n in Ok (Text (pystr_of_string s))
  | _ => Raise TypeError
  end.

Definition summary_columns : list string :=
  ["id"; "name"; "date_created"; "size"; "has_memo"]%string.

Definition get_all_files : prog database DataFrame :=
  let query := SelectSummaries in
  do! rows := with_connect (
    do! result := execute query in
    ret (fetchall result)) in
  match rows with
  | _ :: _ =>
      let df := mkframe summary_columns rows in
      lift (apply_column "size" format_size_cell df)
  | [] => ret (mkframe summary_columns [])
  end.

Definition update_file (file_id : Z) (name content memo : option pystr)
  : prog database bool :=
  let updates := [] in
  let updates :=
    match name with
    | Some v => updates ++ [SetName v]
    | None => updates
    end in
  do! updates :=
    match content with
    | Some v =>
        do! encoded := lift (encode_utf8 v) in
        ret (updates ++ [SetContent v; SetSize (len encoded)])
    | None => ret updates
    end in
  let updates :=
    match memo with
    | Some v => updates ++ [SetMemo v]
    | None => updates
    end in
  match updates with
  | [] => ret false
  | _ :: _ =>
      let query := UpdateFile updates file_id in
      with_connect (
        do! result := execute query in
        do! _ := commit in
        ret (0 <? rowcount result))
  end.

Definition delete_file (file_id : Z) : prog database bool :=
  let query := DeleteFile file_id in
  with_connect (
    do! result := execute query in
    do! _ := commit in
    ret (0 <? rowcount result)).

Definition found_columns : list string :=
  ["id"; "name"; "date_created"; "size"]%string.

Definition search_files (search_term : pystr) : prog database DataFrame :=
  let query := SearchFiles ([percent] ++ search_term ++ [percent]) in
  do! rows := with_connect (
    do! result := execute query in
    ret (fetchall result)) in
  match rows with
  | _ :: _ =>
      let df := mkframe found_columns rows in
      lift (apply_column "size" format_size_cell df)
  | [] => ret (mkframe found_columns [])
  end.

(** ** The upload handler ([app.py], [upload_files]) *)

(** One entry of [input.file_upload()]. *)
Record FileInfo := mkinfo {
  info_name : pystr;     (* file_info["name"] *)
  datapath : pystr       (* file_info["datapath"] *)
}.

(** [file_info["datapath"].read_text(encoding='utf-8')]: the text of the
    uploaded file, or the exception reading it raises. *)
Variable read_text : pystr -> result pystr.

(** [ui.notification_show]: whose upload, and how it went. *)
Inductive notification :=
  | Success (name : pystr)            (* type="success" *)
  | Error (name : pystr) (e : exn).   (* type="error" *)

Record session := mksession {
  db : database;
  notifications : list notification
}.

Definition notification_show (n : notification) (s : session) : session :=
  mksession (db s) (notifications s ++ [n]).

(** The body of the [for] loop: [try: ... except Exception as e: ...]. *)
Definition upload_one (file_info : FileInfo) (s : session) : session :=
  let attempt : prog database Z :=
    do! content := lift (read_text (datapath file_info)) in
    create_file (info_name file_info) content None None in
  match attempt (db s) with
  | (Ok _, d) => notification_show (Success (info_name file_info)) (mksession d (notifications s))
  | (Raise e, d) => notification_show (Error (info_name file_info) e) (mksession d (notifications s))
  end.

Definition upload_files (file_upload : option (list FileInfo)) (s : session) : session :=
  match file_upload with
  | Some files_info => foldl (fun s file_info => upload_one file_info s) s files_info
  | None => s
  end.

(** ** Properties of states *)

(** The stored size of every row is the UTF-8 byte length of its
    content. *)
Definition sizes_match (d : database) : Prop :=
  forall file_id r c,
    files d !! file_id = Some r ->
    File.content r = Some c ->
    File.size r = utf8_byte_length c.

(** The range of an [INT] column. *)
Definition int_column (n : Z) : Prop := -2147483648 <= n <= 2147483647.

Definition sizes_are_int (d : database) : Prop :=
  forall file_id r, files d !! file_id = Some r -> int_column (File.size r).

(** The server accepts statement [q] in state [d]. *)
Definition accepts (q : statement) (d : database) : Prop :=
  server_fault q d = None.

(** *** Text search, as the specification words it *)

Fixpoint starts_with_ci (term text : pystr) : bool :=
  match term, text with
  | [], _ => true
  | _ :: _, [] => false
  | a :: term', b :: text' => same_char weight a b && starts_with_ci term' text'
  end.

(** [term] occurs in [text], case-insensitively. *)
Fixpoint contains_ci (term text : pystr) : bool :=
  starts_with_ci term text ||
  match text with
  | [] => false
  | _ :: text' => contains_ci term text'
  end.

Definition contains_ci_column (term : pystr) (column : option pystr) : bool :=
  match column with
  | Some text => contains_ci term text
  | None => false
  end.

(** The rows a search for [term] is meant to find. *)
Definition mentions (term : pystr) (e : Z * File.row) : bool :=
  contains_ci term (File.name e.2) || contains_ci_column term (File.content e.2).

(** A character [LIKE] reads as itself. *)
Definition plain_char (c : Z) : bool :=
  negb ((c =? percent) || (c =? underscore) || (c =? backslash)).

(** *** Rows of the frames, with the size rendered *)

Definition size_label (n : Z) : pystr :=
  match _format_file_size n with
  | Ok s => pystr_of_string s
  | Raise _ => []
  end.

Definition summary_row (e : Z * File.row) : list value :=
  [Int e.1; Text (File.name e.2); Timestamp (File.date_created e.2);
   Text (size_label (File.size e.2));
   Text (match File.memo e.2 with Some _ => yes | None => no end)].

Definition found_row (e : Z * File.row) : list value :=
  [Int e.1; Text (File.name e.2); Timestamp (File.date_created e.2);
   Text (size_label (File.size e.2))].

(** ** Size formatting, as the specification words it

    Divide by 1024 while the value is at least 1024 and a larger unit
    remains; then one decimal place and the unit. *)
Fixpoint spec_scale (x : float) (unit : string) (larger : list string) : float * string :=
  match larger with
  | [] => (x, unit)
  | u :: larger' =>
      if 1024 * 2 ^ shift x <=? num x
      then spec_scale (mkfloat (num x) (shift x + 10)) u larger'
      else (x, unit)
  end.

Definition spec_format (x : float) : string :=
  if num x =? 0 then "0B"%string
  else
    let '(y, unit) := spec_scale x "B"%string ["KB"; "MB"; "GB"]%string in
    (format_float_1f y ++ unit)%string.

(** *** The effect of each statement, for the statements below *)

(** The row [create_file] asks the server to add. *)
Definition inserted (name content : pystr) (owner memo : option pystr) (d : database)
  : File.row :=
  File.mk name (Some content) (now d) (now d) owner memo (utf8_byte_length content).

(** The [SET] list [update_file] builds, in the order it appends. *)
Definition updates_of (name content memo : option pystr) : list assignment :=
  match name with Some v => [SetName v] | None => [] end ++
  match content with
  | Some v => [SetContent v; SetSize (utf8_byte_length v)]
  | None => []
  end ++
  match memo with Some v => [SetMemo v] | None => [] end.

Definition encodable_option (content : option pystr) : Prop :=
  match content with
  | Some v => encodable v
  | None => True
  end.

(** The dictionary [get_file] builds from a stored row. *)
Definition record_of (file_id : Z) (r : File.row) : gmap string value :=
  list_to_map
    [("id", Int file_id); ("name", Text (File.name r));
     ("content", nullable (File.content r));
     ("date_created", Timestamp (File.date_created r));
     ("date_modified", Timestamp (File.date_modified r));
     ("owner", nullable (File.owner r)); ("memo", nullable (File.memo r));
     ("size", Int (File.size r))]%string.

(** *** Upload reports *)

(** Notification [n] reports on the upload of [file_info]. *)
Definition reports_on (file_info : FileInfo) (n : notification) : Prop :=
  n = Success (info_name file_info) \/ exists e, n = Error (info_name file_info) e.

(** What the handler tries for one file: read it, then store it. *)
Definition attempt (file_info : FileInfo) : prog database Z :=
  do! content := lift (read_text (datapath file_info)) in
  create_file (info_name file_info) content None None.

(** *** The unit of a size, by its magnitude *)

(** How often [_format_file_size] divides, and the unit it ends on. *)
Definition unit_index (n : Z) : Z :=
  if n <? 1024 then 0
  else if n <? 1048576 then 1
  else if n <? 1073741824 then 2
  else 3.

Definition unit_name (i : Z) : string :=
  if i =? 0 then "B"%string
  else if i =? 1 then "KB"%string
  else if i =? 2 then "MB"%string
  else "GB"%string.

(** *** Well-formed states and runs of the manager *)

(** The [AUTO_INCREMENT] counter is above every id in use. *)
Definition ids_below_counter (d : database) : Prop :=
  forall file_id r, files d !! file_id = Some r -> file_id < auto_increment d.

(** Every stored row has a content. *)
Definition rows_have_content (d : database) : Prop :=
  forall file_id r, files d !! file_id = Some r -> is_Some (File.content r).

(** The table right after [create_tables] made it, at time [t]. *)
Definition empty_db (t : Z) : database := mkdb ∅ 1 t.

(** One thing that happens to the database: a call of the document
    manager, or time passing on the server. *)
Inductive call :=
  | CallCreate (name content : pystr) (owner memo : option pystr)
  | CallGet (file_id : Z)
  | CallList
  | CallUpdate (file_id : Z) (name content memo : option pystr)
  | CallDelete (file_id : Z)
  | CallSearch (search_term : pystr)
  | Wait (seconds : Z).

(** The database a call leaves, whatever it returned or raised. *)
Definition run (c : call) (d : database) : database :=
  match c with
  | CallCreate name content owner memo => (create_file name content owner memo d).2
  | CallGet file_id => (get_file file_id d).2
  | CallList => (get_all_files d).2
  | CallUpdate file_id name content memo => (update_file file_id name content memo d).2
  | CallDelete file_id => (delete_file file_id d).2
  | CallSearch search_term => (search_files search_term d).2
  | Wait seconds => mkdb (files d) (auto_increment d) (now d + Z.max 0 seconds)
  end.

Definition run_all (cs : list call) (d : database) : database :=
  foldl (fun d c => run c d) d cs.

(** What a call can do to the database: nothing but let time pass, add
    the row of a [create_file], rewrite one row by an [update_file], or
    remove one row. *)
Inductive effect (d : database) : database -> Prop :=
  | effect_none d' :
      files d' = files d -> auto_increment d' = auto_increment d -> now d <= now d' ->
      effect d d'
  | effect_insert name content owner memo :
      effect d (mkdb (<[auto_increment d := inserted name content owner memo d]> (files d))
                     (auto_increment d + 1) (now d))
  | effect_update file_id name content memo r :
      files d !! file_id = Some r ->
      effect d (mkdb (<[file_id := update_row (updates_of name content memo) (now d) r]>
                        (files d))
                     (auto_increment d) (now d))
  | effect_delete file_id :
      effect d (mkdb (delete file_id (files d)) (auto_increment d) (now d)).

(** ** The page ([app.py]) *)

(** The notification is a success notice. *)
Definition succeeded (n : notification) : Prop :=
  match n with
  | Success _ => True
  | Error _ _ => False
  end.

Global Instance succeeded_dec n : Decision (succeeded n).
Proof. destruct n; cbn; apply _. Defined.

(** [row[i]] for an index found by [column_index]. *)
Definition cell (row : list value) (i : nat) : result value :=
  match row !! i with
  | Some v => Ok v
  | None => Raise IndexError
  end.

(** [df[labels]]: the named columns, in the order asked for. *)
Definition select_columns (labels : list string) (df : DataFrame) : result DataFrame :=
  let! picked := map_result (fun label => column_index label (columns df)) labels in
  let! rows := map_result (fun row => map_result (cell row) picked) (data df) in
  Ok (mkframe labels rows).

Definition grid_columns : list string := ["id"; "name"; "date_created"; "size"]%string.

(** [render.DataGrid]'s check of its [selection_mode] argument: the modes
    the installed shiny knows.  The check is shiny's, not this
    repository's. *)
Variable valid_selection_mode : string -> bool.

(** A [render.DataGrid]. *)
Record DataGrid := mkgrid {
  grid_data : DataFrame;
  selection_mode : string
}.

(** [render.DataGrid(data, selection_mode=mode)]: an unknown mode raises
    [ValueError]. *)
Definition render_DataGrid (data : DataFrame) (mode : string) : result DataGrid :=
  if valid_selection_mode mode then Ok (mkgrid data mode) else Raise ValueError.

(** [file_list]. *)
Definition file_list : prog database DataGrid :=
  do! files_df := get_all_files in
  do! shown := lift (select_columns grid_columns files_df) in
  lift (render_DataGrid shown "single").

Definition newline : Z := 10.

(** ["<br>"]. *)
Definition br : pystr := [60; 98; 114; 62].

(** [s.replace('\n', '<br>')]. *)
Fixpoint replace_newlines (s : pystr) : pystr :=
  match s with
  | [] => []
  | c :: s' =>
      if c =? newline then br ++ replace_newlines s'
      else c :: replace_newlines s'
  end.



(** ** UTF-8 *)

Lemma encode_code_point_len c b :
  encode_code_point c = Ok b -> len b = utf8_width c.
Proof.
  unfold encode_code_point, utf8_width.
  repeat case_match; intros [= <-]; reflexivity.
Qed.

Lemma encode_utf8_len s b :
  encode_utf8 s = Ok b -> len b = utf8_byte_length s.
Proof.
  revert b. induction s as [|c s IH]; intros b; simpl.
  - intros [= <-]. reflexivity.
  - destruct (encode_code_point c) as [b1|] eqn:E1; simpl; [|discriminate].
    destruct (encode_utf8 s) as [b2|] eqn:E2; simpl; [|discriminate].
    intros [= <-]. unfold len in *. rewrite length_app, Nat2Z.inj_add.
    rewrite (IH b2 eq_refl). apply encode_code_point_len in E1. unfold len in E1. lia.
Qed.

Lemma encode_utf8_encodable s :
  encodable s -> exists b, encode_utf8 s = Ok b.
Proof.
  induction 1 as [|c s Hc _ [b Hb]]; simpl; [eauto|].
  rewrite Hb. unfold encode_code_point. rewrite Hc.
  repeat case_match; simpl; eauto.
Qed.

Lemma encode_utf8_ok s b :
  encode_utf8 s = Ok b -> encodable s.
Proof.
  revert b. induction s as [|c s IH]; intros b Hb; [constructor|].
  simpl in Hb. destruct (encode_code_point c) as [b1|] eqn:E1; [|discriminate].
  destruct (encode_utf8 s) as [b2|] eqn:E2; [|discriminate].
  constructor; [|by eapply IH].
  unfold encode_code_point in E1. unfold is_surrogate in *.
  repeat case_match; try discriminate; try done; lia.
Qed.

Lemma encode_utf8_raises s e :
  encode_utf8 s = Raise e -> e = UnicodeEncodeError /\ ~ encodable s.
Proof.
  induction s as [|c s IH]; simpl; [discriminate|].
  destruct (encode_code_point c) as [b1|e1] eqn:E1; simpl.
  - destruct (encode_utf8 s) as [b2|e2] eqn:E2; simpl; [discriminate|].
    intros [= <-]. destruct (IH eq_refl) as [-> Hn]. split; [done|].
    intros Hs. apply Hn. by inversion Hs.
  - intros [= <-]. unfold encode_code_point in E1.
    repeat case_match; try discriminate. injection E1 as <-. split; [done|].
    intros Hs. inversion Hs; congruence.
Qed.

(** ** What each operation does, by the server's answer *)

Lemma create_file_accepted name content owner memo d :
  encodable content ->
  accepts (InsertFile name content owner memo (utf8_byte_length content)) d ->
  create_file name content owner memo d =
    (Ok (auto_increment d),
     mkdb (<[auto_increment d := inserted name content owner memo d]> (files d))
          (auto_increment d + 1) (now d)).
Proof.
  intros He Ha. destruct (encode_utf8_encodable _ He) as [b Hb].
  unfold create_file, bind_prog, lift, with_connect, execute, accepts in *.
  rewrite Hb. rewrite (encode_utf8_len _ _ Hb). simpl. rewrite Ha. reflexivity.
Qed.

Lemma create_file_rejected name content owner memo d e :
  encodable content ->
  server_fault (InsertFile name content owner memo (utf8_byte_length content)) d = Some e ->
  create_file name content owner memo d = (Raise e, d).
Proof.
  intros He Ha. destruct (encode_utf8_encodable _ He) as [b Hb].
  unfold create_file, bind_prog, lift, with_connect, execute in *.
  rewrite Hb. rewrite (encode_utf8_len _ _ Hb). simpl. rewrite Ha. reflexivity.
Qed.

Lemma create_file_unencodable name content owner memo d :
  ~ encodable content ->
  create_file name content owner memo d = (Raise UnicodeEncodeError, d).
Proof.
  intros He. unfold create_file, bind_prog, lift.
  destruct (encode_utf8 content) as [b|e] eqn:Hb.
  - destruct He. by eapply encode_utf8_ok.
  - by destruct (encode_utf8_raises _ _ Hb) as [-> _].
Qed.

Lemma create_file_cases name content owner memo d :
  (exists e, create_file name content owner memo d = (Raise e, d)) \/
  (create_file name content owner memo d =
    (Ok (auto_increment d),
     mkdb (<[auto_increment d := inserted name content owner memo d]> (files d))
          (auto_increment d + 1) (now d))).
Proof.
  destruct (decide (encodable content)) as [He|He].
  - destruct (server_fault (InsertFile name content owner memo (utf8_byte_length content)) d)
      as [e|] eqn:Hf.
    + left. exists e. by apply create_file_rejected.
    + right. by apply create_file_accepted.
  - left. eexists. by apply create_file_unencodable.
Qed.

Lemma update_file_nothing file_id d :
  update_file file_id None None None d = (Ok false, d).
Proof. reflexivity. Qed.

Lemma update_file_unencodable file_id name content memo d :
  ~ encodable content ->
  update_file file_id name (Some content) memo d = (Raise UnicodeEncodeError, d).
Proof.
  intros He. unfold update_file, bind_prog, lift.
  destruct (encode_utf8 content) as [b|e] eqn:Hb.
  - destruct He. by eapply encode_utf8_ok.
  - by destruct (encode_utf8_raises _ _ Hb) as [-> _].
Qed.

Lemma updates_of_nil name content memo :
  updates_of name content memo = [] -> name = None /\ content = None /\ memo = None.
Proof. destruct name, content, memo; simpl; intros; done. Qed.

(** With something to set and encodable content, [update_file] sends one
    [UPDATE] and reports whether it matched a row. *)
Lemma update_file_sends file_id name content memo d :
  encodable_option content ->
  updates_of name content memo <> [] ->
  update_file file_id name content memo d =
    with_connect (
      do! result := execute (UpdateFile (updates_of name content memo) file_id) in
      do! _ := commit in
      ret (0 <? rowcount result)) d.
Proof.
  intros He Hne. unfold update_file, updates_of in *.
  destruct content as [c|]; simpl in He.
  - destruct (encode_utf8_encodable _ He) as [b Hb].
    unfold bind_prog at 1, lift. unfold bind_prog at 1. rewrite Hb.
    rewrite (encode_utf8_len _ _ Hb). unfold ret at 1.
    destruct name, memo; reflexivity.
  - unfold bind_prog at 1, ret at 1.
    destruct name, memo; try reflexivity. by destruct Hne.
Qed.

Lemma update_file_accepted file_id name content memo d :
  encodable_option content ->
  updates_of name content memo <> [] ->
  accepts (UpdateFile (updates_of name content memo) file_id) d ->
  update_file file_id name content memo d =
    match files d !! file_id with
    | Some r =>
        (Ok true,
         mkdb (<[file_id := update_row (updates_of name content memo) (now d) r]> (files d))
              (auto_increment d) (now d))
    | None => (Ok false, d)
    end.
Proof.
  intros He Hne Ha. rewrite update_file_sends by done.
  unfold with_connect, bind_prog, execute, accepts in *. simpl. rewrite Ha. simpl.
  destruct (files d !! file_id); reflexivity.
Qed.

Lemma update_file_rejected file_id name content memo d e :
  encodable_option content ->
  updates_of name content memo <> [] ->
  server_fault (UpdateFile (updates_of name content memo) file_id) d = Some e ->
  update_file file_id name content memo d = (Raise e, d).
Proof.
  intros He Hne Ha. rewrite update_file_sends by done.
  unfold with_connect, bind_prog, execute. simpl. rewrite Ha. reflexivity.
Qed.

Lemma delete_file_accepted file_id d :
  accepts (DeleteFile file_id) d ->
  delete_file file_id d =
    match files d !! file_id with
    | Some _ => (Ok true, mkdb (delete file_id (files d)) (auto_increment d) (now d))
    | None => (Ok false, d)
    end.
Proof.
  intros Ha. unfold delete_file, with_connect, bind_prog, execute, accepts in *.
  simpl. rewrite Ha. simpl. destruct (files d !! file_id); reflexivity.
Qed.

Lemma delete_file_rejected file_id d e :
  server_fault (DeleteFile file_id) d = Some e ->
  delete_file file_id d = (Raise e, d).
Proof.
  intros Ha. unfold delete_file, with_connect, bind_prog, execute.
  simpl. rewrite Ha. reflexivity.
Qed.

Lemma get_file_accepted file_id d :
  accepts (SelectFile file_id) d ->
  get_file file_id d = (Ok (record_of file_id <$> files d !! file_id), d).
Proof.
  intros Ha. unfold get_file, with_connect, bind_prog, execute, accepts in *.
  simpl. rewrite Ha. simpl. destruct (files d !! file_id); reflexivity.
Qed.

Lemma get_file_rejected file_id d e :
  server_fault (SelectFile file_id) d = Some e ->
  get_file file_id d = (Raise e, d).
Proof.
  intros Ha. unfold get_file, with_connect, bind_prog, execute.
  simpl. rewrite Ha. reflexivity.
Qed.

(** ** What an [UPDATE] leaves in the row *)

Lemma assigned r name content memo :
  foldl assign r (updates_of name content memo) =
    File.mk (default (File.name r) name)
            (match content with Some c => Some c | None => File.content r end)
            (File.date_created r) (File.date_modified r) (File.owner r)
            (match memo with Some m => Some m | None => File.memo r end)
            (match content with
             | Some c => utf8_byte_length c
             | None => File.size r
             end).
Proof. destruct r, name, content, memo; reflexivity. Qed.

Lemma update_row_columns updates t r :
  let r' := foldl assign r updates in
  let u := update_row updates t r in
  File.name u = File.name r' /\ File.content u = File.content r' /\
  File.date_created u = File.date_created r' /\
  File.owner u = File.owner r' /\ File.memo u = File.memo r' /\
  File.size u = File.size r' /\
  (File.date_modified u = File.date_modified r \/ File.date_modified u = t).
Proof.
  simpl. unfold update_row. destruct (decide (foldl assign r updates = r)) as [->|_].
  - repeat split; auto.
  - repeat split; auto.
Qed.

Lemma update_row_sizes_match name content memo t r :
  (forall c, File.content r = Some c -> File.size r = utf8_byte_length c) ->
  forall c, File.content (update_row (updates_of name content memo) t r) = Some c ->
            File.size (update_row (updates_of name content memo) t r) = utf8_byte_length c.
Proof.
  intros Hr c.
  destruct (update_row_columns (updates_of name content memo) t r)
    as (_ & -> & _ & _ & _ & -> & _).
  rewrite assigned. simpl. destruct content as [c'|]; [by intros [= ->]|]. apply Hr.
Qed.

(** ** The size invariant *)

Lemma create_file_sizes_match name content owner memo d :
  sizes_match d -> sizes_match (create_file name content owner memo d).2.
Proof.
  intros Hd. destruct (create_file_cases name content owner memo d) as [[e ->]| ->];
    [done|]. simpl.
  intros j r c. simpl. rewrite lookup_insert. case_decide as Hj.
  - intros [= <-]. simpl. by intros [= <-].
  - apply Hd.
Qed.

Lemma update_file_sizes_match file_id name content memo d :
  sizes_match d -> sizes_match (update_file file_id name content memo d).2.
Proof.
  intros Hd.
  assert (Decision (encodable_option content)) as Hdec
    by (destruct content; simpl; apply _).
  destruct Hdec as [He|He].
  - destruct (decide (updates_of name content memo = [])) as [Hn|Hn].
    { apply updates_of_nil in Hn as (-> & -> & ->). done. }
    destruct (server_fault (UpdateFile (updates_of name content memo) file_id) d)
      as [e|] eqn:Hf.
    { by rewrite (update_file_rejected _ _ _ _ _ e). }
    rewrite update_file_accepted by done.
    destruct (files d !! file_id) as [r|] eqn:Hr; [|done]. simpl.
    intros j r' c. simpl. rewrite lookup_insert. case_decide as Hj.
    + intros [= <-]. apply update_row_sizes_match. intros c' Hc'. by eapply Hd.
    + apply Hd.
  - destruct content as [c|]; [|by destruct He].
    by rewrite update_file_unencodable.
Qed.

Lemma delete_file_sizes_match file_id d :
  sizes_match d -> sizes_match (delete_file file_id d).2.
Proof.
  intros Hd.
  destruct (server_fault (DeleteFile file_id) d) as [e|] eqn:Hf.
  { by rewrite (delete_file_rejected _ _ e). }
  rewrite delete_file_accepted by done.
  destruct (files d !! file_id) as [r|] eqn:Hr; [|done]. simpl.
  intros j r' c. simpl. rewrite lookup_delete. case_decide; [done|]. apply Hd.
Qed.

(** C1.  The size stored by [create_file] and by a content-carrying
    [update_file] is the UTF-8 byte length of the content supplied, next
    to that content; and the three writing operations keep every row's
    size equal to the UTF-8 byte length of its content, however they
    end. *)
Theorem stored_size_is_utf8_byte_length :
  (forall name content owner memo d,
      encodable content ->
      accepts (InsertFile name content owner memo (utf8_byte_length content)) d ->
      exists file_id d' r,
        create_file name content owner memo d = (Ok file_id, d') /\
        files d' !! file_id = Some r /\
        File.content r = Some content /\
        File.size r = utf8_byte_length content) /\
  (forall file_id name content memo d r0,
      encodable content ->
      accepts (UpdateFile (updates_of name (Some content) memo) file_id) d ->
      files d !! file_id = Some r0 ->
      exists d' r,
        update_file file_id name (Some content) memo d = (Ok true, d') /\
        files d' !! file_id = Some r /\
        File.content r = Some content /\
        File.size r = utf8_byte_length content) /\
  (forall d,
      sizes_match d ->
      (forall name content owner memo,
          sizes_match (create_file name content owner memo d).2) /\
      (forall file_id name content memo,
          sizes_match (update_file file_id name content memo d).2) /\
      (forall file_id, sizes_match (delete_file file_id d).2)).
Proof.
  split; [|split].
  - intros name content owner memo d He Ha.
    rewrite create_file_accepted by done.
    eexists _, _, _. split; [reflexivity|]. simpl.
    rewrite lookup_insert_eq. done.
  - intros file_id name content memo d r0 He Ha Hr.
    rewrite update_file_accepted; [|done| |done].
    2: { unfold updates_of. destruct name; simpl; done. }
    rewrite Hr. eexists _, _. split; [reflexivity|]. simpl.
    rewrite lookup_insert_eq. split; [reflexivity|].
    destruct (update_row_columns (updates_of name (Some content) memo) (now d) r0)
      as (_ & -> & _ & _ & _ & -> & _).
    by rewrite assigned.
  - intros d Hd. split; [|split]; intros.
    + by apply create_file_sizes_match.
    + by apply update_file_sizes_match.
    + by apply delete_file_sizes_match.
Qed.

(** C3.  A file created and then fetched by the id [create_file] returned
    comes back with the name, content, owner and memo that were supplied
    (an absent owner or memo comes back as [None]). *)
Theorem create_then_get_round_trip name content owner memo d :
  encodable content ->
  accepts (InsertFile name content owner memo (utf8_byte_length content)) d ->
  exists file_id d',
    create_file name content owner memo d = (Ok file_id, d') /\
    (accepts (SelectFile file_id) d' ->
     exists record : gmap string value,
       get_file file_id d' = (Ok (Some record), d') /\
       record !! "name"%string = Some (Text name) /\
       record !! "content"%string = Some (Text content) /\
       record !! "owner"%string = Some (nullable owner) /\
       record !! "memo"%string = Some (nullable memo)).
Proof.
  intros He Ha. rewrite create_file_accepted by done.
  eexists _, _. split; [reflexivity|]. intros Hs.
  rewrite get_file_accepted by done. simpl. rewrite lookup_insert_eq. simpl.
  eexists. split; [reflexivity|]. unfold record_of, inserted. simpl.
  repeat split; reflexivity.
Qed.

Lemma update_row_same updates t r :
  foldl assign r updates = r -> update_row updates t r = r.
Proof. intros H. unfold update_row. by rewrite decide_True. Qed.

Lemma update_row_touched updates t r :
  foldl assign r updates <> r -> File.date_modified (update_row updates t r) = t.
Proof. intros H. unfold update_row. by rewrite decide_False. Qed.

Lemma content_assigned_same r content :
  foldl assign r (updates_of None (Some content) None) = r <->
  File.content r = Some content /\ File.size r = utf8_byte_length content.
Proof.
  rewrite assigned. destruct r as [n c dc dm o m z]. cbn. split.
  - by intros [= <- <-].
  - by intros [-> ->].
Qed.

(** C4.  [update_file(file_id, content=c)] on an existing row, with name
    and memo not supplied, leaves every other row as it was and leaves
    the row's name, owner, memo and creation time as they were, however
    the call ends; when the server accepts the statement the call returns
    [True] and the row holds the new content and its UTF-8 byte length as
    size.  Its modification time is then the current time whenever the
    content or the size stored before differs from the new one, and the
    whole row, modification time included, stays as it was when both
    were already there. *)
Theorem update_content_frame file_id content d r res d' :
  files d !! file_id = Some r ->
  update_file file_id None (Some content) None d = (res, d') ->
  (forall j, j <> file_id -> files d' !! j = files d !! j) /\
  (exists r',
      files d' !! file_id = Some r' /\
      File.name r' = File.name r /\
      File.owner r' = File.owner r /\
      File.memo r' = File.memo r /\
      File.date_created r' = File.date_created r /\
      (encodable content ->
       accepts (UpdateFile (updates_of None (Some content) None) file_id) d ->
       res = Ok true /\
       File.content r' = Some content /\
       File.size r' = utf8_byte_length content /\
       (File.date_modified r' = File.date_modified r \/
        File.date_modified r' = now d) /\
       (File.content r <> Some content \/ File.size r <> utf8_byte_length content ->
        File.date_modified r' = now d) /\
       (File.content r = Some content ->
        File.size r = utf8_byte_length content ->
        r' = r))).
Proof.
  intros Hr Hu.
  destruct (decide (encodable content)) as [He|He].
  - destruct (server_fault (UpdateFile (updates_of None (Some content) None) file_id) d)
      as [e|] eqn:Hf.
    + rewrite (update_file_rejected _ _ _ _ _ e) in Hu by done.
      injection Hu as <- <-. split; [done|]. exists r.
      do 5 (split; [done|]). intros _ Ha. unfold accepts in Ha. congruence.
    + rewrite update_file_accepted in Hu by done. rewrite Hr in Hu.
      injection Hu as <- <-. cbn [files]. split.
      { intros j Hj. by rewrite lookup_insert_ne. }
      eexists. rewrite lookup_insert_eq. split; [reflexivity|].
      destruct (update_row_columns (updates_of None (Some content) None) (now d) r)
        as (Hn & Hc & Hdc & Ho & Hm & Hz & Hdm).
      rewrite assigned in Hn, Hc, Hdc, Ho, Hm, Hz. cbn in Hn, Hc, Hdc, Ho, Hm, Hz.
      do 4 (split; [done|]). intros _ _.
      do 4 (split; [done|]). split.
      * intros Hdiff. apply update_row_touched. rewrite content_assigned_same.
        intros [? ?]. destruct Hdiff; done.
      * intros Hc0 Hz0. apply update_row_same. by apply content_assigned_same.
  - rewrite update_file_unencodable in Hu by done. injection Hu as <- <-.
    split; [done|]. exists r. do 5 (split; [done|]). intros; done.
Qed.

(** C5.  When the server accepts the [DELETE], [delete_file] returns
    [True] exactly when a row with that id was stored, and afterwards no
    row has the id while every other row is as before; a following
    [get_file] returns [None] without raising, and a following
    [delete_file] returns [False]. *)
Theorem delete_then_absent file_id d :
  accepts (DeleteFile file_id) d ->
  exists removed d',
    delete_file file_id d = (Ok removed, d') /\
    (removed = true <-> is_Some (files d !! file_id)) /\
    files d' !! file_id = None /\
    (forall j, j <> file_id -> files d' !! j = files d !! j) /\
    (accepts (SelectFile file_id) d' -> get_file file_id d' = (Ok None, d')) /\
    (accepts (DeleteFile file_id) d' -> delete_file file_id d' = (Ok false, d')).
Proof.
  intros Ha. rewrite delete_file_accepted by done.
  destruct (files d !! file_id) as [r|] eqn:Hr.
  - eexists _, _. split; [reflexivity|]. simpl. split; [by split; eauto|].
    split; [apply lookup_delete_eq|]. split.
    { intros j Hj. by rewrite lookup_delete_ne. }
    split; intros Hs.
    + rewrite get_file_accepted by done. simpl. by rewrite lookup_delete_eq.
    + rewrite delete_file_accepted by done. simpl. by rewrite lookup_delete_eq.
  - eexists _, _. split; [reflexivity|]. split.
    { split; [done|]. intros [? ?]. done. }
    split; [done|]. split; [done|]. split; intros Hs.
    + rewrite get_file_accepted by done. by rewrite Hr.
    + rewrite delete_file_accepted by done. by rewrite Hr.
Qed.

(** C10.  [update_file(file_id)] with name, content and memo all absent
    returns [False] and leaves the database as it was, whether or not a
    row has the id.  No statement reaches the server: the result is the
    same for every server, also one that rejects every statement. *)
Theorem update_without_fields_is_noop file_id d :
  update_file file_id None None None d = (Ok false, d).
Proof. apply update_file_nothing. Qed.

(** ** Failure *)

Lemma get_all_files_rejected d e :
  server_fault SelectSummaries d = Some e -> get_all_files d = (Raise e, d).
Proof.
  intros Ha. unfold get_all_files, with_connect, bind_prog, execute.
  simpl. rewrite Ha. reflexivity.
Qed.

Lemma search_files_rejected term d e :
  server_fault (SearchFiles ([percent] ++ term ++ [percent])) d = Some e ->
  search_files term d = (Raise e, d).
Proof.
  intros Ha. unfold search_files, with_connect, bind_prog, execute.
  simpl in *. rewrite Ha. reflexivity.
Qed.

Lemma get_file_reads file_id d : (get_file file_id d).2 = d.
Proof.
  destruct (server_fault (SelectFile file_id) d) as [e|] eqn:Hf.
  - by rewrite (get_file_rejected _ _ e).
  - by rewrite get_file_accepted.
Qed.

Lemma get_all_files_reads d : (get_all_files d).2 = d.
Proof.
  unfold get_all_files, with_connect, bind_prog, execute. simpl.
  destruct (server_fault SelectSummaries d); simpl; [done|].
  destruct (select_summary <$> _); reflexivity.
Qed.

Lemma search_files_reads term d : (search_files term d).2 = d.
Proof.
  unfold search_files, with_connect, bind_prog, execute. simpl.
  destruct (server_fault _ d); simpl; [done|].
  destruct (select_found <$> _); reflexivity.
Qed.

Lemma create_file_raises name content owner memo d e :
  (create_file name content owner memo d).1 = Raise e ->
  (create_file name content owner memo d).2 = d.
Proof.
  destruct (create_file_cases name content owner memo d) as [[e' ->]| ->]; [done|].
  discriminate.
Qed.

Lemma update_file_raises file_id name content memo d e :
  (update_file file_id name content memo d).1 = Raise e ->
  (update_file file_id name content memo d).2 = d.
Proof.
  assert (Decision (encodable_option content)) as [He|He]
    by (destruct content; simpl; apply _).
  - destruct (decide (updates_of name content memo = [])) as [Hn|Hn].
    { apply updates_of_nil in Hn as (-> & -> & ->). done. }
    destruct (server_fault (UpdateFile (updates_of name content memo) file_id) d)
      as [e'|] eqn:Hf.
    { by rewrite (update_file_rejected _ _ _ _ _ e'). }
    rewrite update_file_accepted by done.
    destruct (files d !! file_id); discriminate.
  - destruct content as [c|]; [|by destruct He].
    by rewrite update_file_unencodable.
Qed.

Lemma delete_file_raises file_id d e :
  (delete_file file_id d).1 = Raise e -> (delete_file file_id d).2 = d.
Proof.
  destruct (server_fault (DeleteFile file_id) d) as [e'|] eqn:Hf.
  { by rewrite (delete_file_rejected _ _ e'). }
  rewrite delete_file_accepted by done.
  destruct (files d !! file_id); discriminate.
Qed.

(** C8.  When the server rejects the statement of an operation, the
    operation ends with that exception and the database is the one it
    started from; the same holds for any block run under
    [engine.connect()] or [get_session] that raises before it commits,
    whatever it executed until then.  And whatever exception one of the
    six operations ends with, the database is the one it started from. *)
Theorem failed_statement_changes_nothing d e :
  (forall name content owner memo,
      encodable content ->
      server_fault (InsertFile name content owner memo (utf8_byte_length content)) d
        = Some e ->
      create_file name content owner memo d = (Raise e, d)) /\
  (forall file_id,
      server_fault (SelectFile file_id) d = Some e ->
      get_file file_id d = (Raise e, d)) /\
  (server_fault SelectSummaries d = Some e -> get_all_files d = (Raise e, d)) /\
  (forall file_id name content memo,
      encodable_option content ->
      updates_of name content memo <> [] ->
      server_fault (UpdateFile (updates_of name content memo) file_id) d = Some e ->
      update_file file_id name content memo d = (Raise e, d)) /\
  (forall file_id,
      server_fault (DeleteFile file_id) d = Some e ->
      delete_file file_id d = (Raise e, d)) /\
  (forall search_term,
      server_fault (SearchFiles ([percent] ++ search_term ++ [percent])) d = Some e ->
      search_files search_term d = (Raise e, d)) /\
  (forall A (body : prog connection A) c,
      body (connect d) = (Raise e, c) ->
      committed c = d ->
      with_connect body d = (Raise e, d) /\ get_session body d = (Raise e, d)) /\
  (forall name content owner memo,
      (create_file name content owner memo d).1 = Raise e ->
      (create_file name content owner memo d).2 = d) /\
  (forall file_id name content memo,
      (update_file file_id name content memo d).1 = Raise e ->
      (update_file file_id name content memo d).2 = d) /\
  (forall file_id,
      (delete_file file_id d).1 = Raise e -> (delete_file file_id d).2 = d) /\
  (forall file_id, (get_file file_id d).2 = d) /\
  (get_all_files d).2 = d /\
  (forall search_term, (search_files search_term d).2 = d).
Proof.
  repeat apply conj.
  - intros. by apply create_file_rejected.
  - intros. by apply get_file_rejected.
  - apply get_all_files_rejected.
  - intros. by apply update_file_rejected.
  - intros. by apply delete_file_rejected.
  - intros. by apply search_files_rejected.
  - intros A body c Hb Hc. unfold with_connect, get_session, rollback, close.
    rewrite Hb. simpl. rewrite Hc. split; reflexivity.
  - intros. by apply (create_file_raises _ _ _ _ _ e).
  - intros. by apply (update_file_raises _ _ _ _ _ e).
  - intros. by apply (delete_file_raises _ _ e).
  - intros. apply get_file_reads.
  - apply get_all_files_reads.
  - intros. apply search_files_reads.
Qed.

(** ** Uploads *)

Lemma upload_one_outcome file_info s :
  match attempt file_info (db s) with
  | (Ok _, d) =>
      upload_one file_info s =
        mksession d (notifications s ++ [Success (info_name file_info)])
  | (Raise e, d) =>
      d = db s /\
      upload_one file_info s =
        mksession (db s) (notifications s ++ [Error (info_name file_info) e])
  end.
Proof.
  unfold upload_one, attempt, bind_prog, lift.
  destruct (read_text (datapath file_info)) as [content|e]; [|done].
  destruct (create_file_cases (info_name file_info) content None None (db s))
    as [[e ->]| ->]; done.
Qed.

Lemma upload_one_reports file_info s :
  exists n, notifications (upload_one file_info s) = notifications s ++ [n] /\
            reports_on file_info n.
Proof.
  pose proof (upload_one_outcome file_info s) as H.
  destruct (attempt file_info (db s)) as [[file_id|e] d].
  - rewrite H. eexists. split; [done|]. by left.
  - destruct H as [_ ->]. eexists. split; [done|]. right. by eexists.
Qed.

Lemma upload_files_app before after s :
  upload_files (Some (before ++ after)) s =
    upload_files (Some after) (upload_files (Some before) s).
Proof. unfold upload_files. apply foldl_app. Qed.

Lemma upload_files_reports files_info s :
  exists ns,
    notifications (upload_files (Some files_info) s) = notifications s ++ ns /\
    Forall2 reports_on files_info ns.
Proof.
  revert s. induction files_info as [|f fs IH]; intros s.
  - exists []. split; [by rewrite app_nil_r|constructor].
  - destruct (upload_one_reports f s) as (n & Hn & Hr).
    destruct (IH (upload_one f s)) as (ns & Hns & Hrs).
    exists (n :: ns). split; [|by constructor].
    simpl in *. rewrite Hns, Hn. by rewrite <- app_assoc.
Qed.

(** C9.  The upload handler goes through the files in list order and
    every file gets its own report, in that order, whether or not
    earlier files failed: the file after any prefix of the list is
    attempted on the state the prefix left, a failed attempt is reported
    as an error with its exception and leaves the database as it was, a
    successful one is reported as a success, and the rest of the list
    is processed after either. *)
Theorem upload_files_reports_each_file files_info s :
  (exists ns,
      notifications (upload_files (Some files_info) s) = notifications s ++ ns /\
      Forall2 reports_on files_info ns) /\
  (forall before file_info after,
      files_info = before ++ file_info :: after ->
      let s1 := upload_files (Some before) s in
      upload_files (Some files_info) s =
        upload_files (Some after) (upload_one file_info s1) /\
      match attempt file_info (db s1) with
      | (Ok _, d) =>
          upload_one file_info s1 =
            mksession d (notifications s1 ++ [Success (info_name file_info)])
      | (Raise e, _) =>
          upload_one file_info s1 =
            mksession (db s1) (notifications s1 ++ [Error (info_name file_info) e])
      end).
Proof.
  split; [apply upload_files_reports|].
  intros before file_info after -> s1. split.
  - by rewrite upload_files_app.
  - pose proof (upload_one_outcome file_info s1) as H.
    destruct (attempt file_info (db s1)) as [[file_id|e] d]; [done|]. by destruct H.
Qed.

(** ** Size formatting *)

Lemma round_to_53_bits_exact a :
  0 <= a < 2 ^ 53 -> round_to_53_bits a = a.
Proof.
  intros Ha. unfold round_to_53_bits.
  destruct (decide (a = 0)) as [->|Hz]; [reflexivity|].
  assert (Z.log2 a < 53) as Hl by (apply Z.log2_lt_pow2; lia).
  apply Z.ltb_lt in Hl. by rewrite Hl.
Qed.

Lemma round_to_53_bits_large a :
  2 ^ 53 <= a -> 2 ^ 53 <= round_to_53_bits a.
Proof.
  intros Ha. unfold round_to_53_bits.
  assert (53 <= Z.log2 a) as Hl by (apply Z.log2_le_pow2; lia).
  destruct (Z.ltb_spec (Z.log2 a) 53) as [|_]; [lia|].
  set (s := Z.log2 a - 52). set (q := Z.shiftr a s).
  assert (0 < s) by (unfold s; lia).
  assert (2 ^ 52 <= q) as Hq.
  { unfold q. rewrite Z.shiftr_div_pow2 by lia.
    apply Z.div_le_lower_bound; [lia|].
    rewrite <- Z.pow_add_r by lia. replace (s + 52) with (Z.log2 a) by (unfold s; lia).
    apply Z.log2_spec. lia. }
  assert (0 < 2 ^ s) by lia.
  match goal with |- _ <= Z.shiftl ?q' s => assert (q <= q') as Hq' by (case_match; lia) end.
  rewrite Z.shiftl_mul_pow2 by lia.
  assert (2 ^ 1 <= 2 ^ s) by (apply Z.pow_le_mono_r; lia).
  nia.
Qed.

Lemma int_to_float_small n :
  - 2 ^ 53 < n < 2 ^ 53 -> int_to_float n = Ok (mkfloat n 0).
Proof.
  intros Hn. unfold int_to_float.
  rewrite round_to_53_bits_exact by lia.
  destruct (Z.leb_spec (Z.shiftl 1 1024) (Z.abs n)) as [Hb|_].
  - rewrite Z.shiftl_1_l in Hb.
    assert (2 ^ 53 < 2 ^ 1024) by (apply Z.pow_lt_mono_r; lia). lia.
  - f_equal. f_equal. lia.
Qed.

(** Conversion keeps the comparison with 1024 and with 0. *)
Lemma int_to_float_num n x :
  int_to_float n = Ok x ->
  shift x = 0 /\ (1024 <= num x <-> 1024 <= n) /\ (num x = 0 <-> n = 0).
Proof.
  unfold int_to_float. case_match; [discriminate|]. intros [= <-].
  cbn [shift num]. split; [done|].
  destruct (Z.lt_ge_cases (Z.abs n) (2 ^ 53)) as [Hs|Hl].
  - rewrite round_to_53_bits_exact by lia. lia.
  - pose proof (round_to_53_bits_large _ Hl) as Hr.
    assert (2 ^ 53 = 9007199254740992) as Hp by reflexivity.
    destruct (Z.sgn_spec n) as [[? ->]|[[? ->]|[? ->]]]; lia.
Qed.

Lemma scale_loop_exits fuel v i v' i' :
  len size_names - 1 - i <= Z.of_nat fuel ->
  scale_loop fuel v i = Ok (v', i') ->
  loop_guard v' i' = false.
Proof.
  revert v i. induction fuel as [|fuel IH]; intros v i Hf; cbn [scale_loop].
  - intros [= <- <-]. unfold loop_guard.
    destruct (Z.ltb_spec i (len size_names - 1)) as [|_]; [lia|]. apply andb_false_r.
  - destruct (loop_guard v i) eqn:Hg; [|by intros [= <- <-]].
    destruct (truediv_1024 v) as [x|e]; [|discriminate]. cbn [bind].
    apply IH. lia.
Qed.

Lemma format_file_size_is_spec_format n x :
  int_to_float n = Ok x -> _format_file_size n = Ok (spec_format x).
Proof.
  intros Hx. destruct (int_to_float_num _ _ Hx) as (Hs & H1024 & H0).
  unfold _format_file_size, spec_format.
  destruct (Z.eqb_spec n 0) as [Hn|Hn].
  { apply H0 in Hn. by rewrite Hn. }
  destruct (Z.eqb_spec (num x) 0) as [Hz|_]; [by apply H0 in Hz|].
  change (Z.to_nat (len size_names - 1)) with 3%nat.
  cbn [scale_loop spec_scale]. unfold loop_guard. cbn [ge_1024].
  rewrite Hs. change (2 ^ 0) with 1. rewrite Z.mul_1_r.
  destruct (Z.leb_spec 1024 n) as [Hge|Hlt].
  - destruct (Z.leb_spec 1024 (num x)) as [_|?]; [|lia].
    change (0 <? len size_names - 1) with true. cbn [andb].
    unfold truediv_1024. cbn [to_float]. rewrite Hx. cbn [bind num shift].
    rewrite Hs.
    repeat (cbn [num shift ge_1024 andb bind fst snd];
      match goal with
      | |- context [?a <=? ?b] =>
          destruct (Z.leb_spec a b); cbn [andb bind fst snd to_float]
      | _ => idtac
      end); try reflexivity.
  - destruct (Z.leb_spec 1024 (num x)) as [?|_]; [lia|].
    cbn [andb bind fst snd]. unfold format_1f. cbn [to_float]. rewrite Hx.
    reflexivity.
Qed.

Lemma int_to_float_finite n :
  Z.abs n < 2 ^ 1024 - 2 ^ 970 -> exists x, int_to_float n = Ok x.
Proof.
  intros Hn. unfold int_to_float.
  destruct (Z.leb_spec (Z.shiftl 1 1024) (round_to_53_bits (Z.abs n))) as [Hb|_];
    [exfalso|by eexists].
  rewrite Z.shiftl_1_l in Hb. revert Hn Hb. generalize (Z.abs_nonneg n).
  generalize (Z.abs n). clear n. intros a Ha Hn.
  assert (0 < 2 ^ 970) as Hp970 by (apply Z.pow_pos_nonneg; lia).
  assert (2 ^ 1024 = 2 ^ 54 * 2 ^ 970) as E1024 by (rewrite <- Z.pow_add_r by lia; reflexivity).
  assert (2 ^ 53 < 2 ^ 1024).
  { rewrite E1024. change (2 ^ 53) with 9007199254740992.
    change (2 ^ 54) with 18014398509481984. nia. }
  destruct (Z.lt_ge_cases a (2 ^ 53)) as [Hs|Hl].
  { rewrite round_to_53_bits_exact by lia. lia. }
  unfold round_to_53_bits.
  assert (53 <= Z.log2 a) as Hl53 by (apply Z.log2_le_pow2; lia).
  assert (Z.log2 a < 1024) as Hl1024 by (apply Z.log2_lt_pow2; lia).
  destruct (Z.ltb_spec (Z.log2 a) 53) as [|_]; [lia|].
  set (s := Z.log2 a - 52).
  assert (0 < s <= 971) as Hs by (unfold s; lia).
  assert (0 < 2 ^ s) as Hps by (apply Z.pow_pos_nonneg; lia).
  rewrite Z.shiftr_div_pow2, Z.land_ones, Z.shiftl_1_l by lia.
  pose proof (Z.div_mod a (2 ^ s) ltac:(lia)) as Hdm.
  pose proof (Z.mod_pos_bound a (2 ^ s) ltac:(lia)) as Hr.
  set (q := a / 2 ^ s) in *. set (r := a mod 2 ^ s) in *.
  assert (2 ^ s = 2 * 2 ^ (s - 1)) as Ehalf.
  { rewrite <- Z.pow_succ_r by lia. f_equal. lia. }
  assert (q < 2 ^ 53) as Hq.
  { unfold q. apply Z.div_lt_upper_bound; [lia|].
    rewrite <- Z.pow_add_r by lia. replace (s + 53) with (Z.succ (Z.log2 a)) by (unfold s; lia).
    apply Z.log2_spec. lia. }
  rewrite Z.shiftl_mul_pow2 by lia.
  destruct (Z.eq_dec s 971) as [Es|Ns].
  - (* the top binade *)
    rewrite Es in *. clear Es.
    assert (2 ^ 971 = 2 * 2 ^ 970) as E971 by (rewrite <- Z.pow_succ_r by lia; reflexivity).
    change (971 - 1) with 970 in *.
    change (2 ^ 53) with 9007199254740992 in *.
    change (2 ^ 54) with 18014398509481984 in *.
    match goal with |- context [if ?c then _ else _] => destruct c eqn:Hc end;
      intros Hb.
    + assert (2 ^ 970 <= r) as Hrr.
      { apply orb_true_iff in Hc as [Hc|Hc]; [apply Z.ltb_lt in Hc; lia|].
        apply andb_true_iff in Hc as [Hc _]. apply Z.eqb_eq in Hc. lia. }
      nia.
    + nia.
  - (* below it *)
    assert (2 ^ s <= 2 ^ 970) as Hle by (apply Z.pow_le_mono_r; lia).
    change (2 ^ 53) with 9007199254740992 in *.
    change (2 ^ 54) with 18014398509481984 in *.
    match goal with |- context [if ?c then _ else _] => destruct c eqn:Hc end;
      intros Hb; nia.
Qed.

Lemma round_half_even_nearest a b :
  0 <= a -> 0 < b ->
  0 <= round_half_even a b /\ 2 * Z.abs (round_half_even a b * b - a) <= b.
Proof.
  intros Ha Hb. unfold round_half_even.
  pose proof (Z.div_mod a b ltac:(lia)) as Hdm.
  pose proof (Z.mod_pos_bound a b Hb) as Hr.
  assert (0 <= a / b) as Hq by (apply Z.div_pos; lia).
  set (q := a / b) in *. set (r := a mod b) in *.
  destruct ((b <? 2 * r) || (2 * r =? b) && Z.odd q) eqn:Hc.
  - split; [lia|].
    assert (b <= 2 * r) as Hrr.
    { apply orb_true_iff in Hc as [Hc|Hc]; [apply Z.ltb_lt in Hc; lia|].
      apply andb_true_iff in Hc as [Hc _]. apply Z.eqb_eq in Hc. lia. }
    nia.
  - split; [lia|].
    apply orb_false_iff in Hc as [Hc _]. apply Z.ltb_ge in Hc. nia.
Qed.

Lemma decimal_digit k :
  0 <= k < 10 -> exists c : ascii, decimal k = String c EmptyString.
Proof.
  intros Hk.
  assert (k = 0 \/ k = 1 \/ k = 2 \/ k = 3 \/ k = 4 \/ k = 5 \/ k = 6 \/ k = 7 \/
          k = 8 \/ k = 9) as Hcases by lia.
  repeat destruct Hcases as [->|Hcases]; try subst k; eexists; reflexivity.
Qed.

(** [f"{y:.1f}"] is a sign, the digits of a whole number, a point and
    one digit, and the number of tenths these spell is nearest to [y]. *)
Lemma format_float_1f_one_decimal y :
  0 <= shift y ->
  exists tenths (c : ascii),
    0 <= tenths /\
    2 * Z.abs (tenths * 2 ^ shift y - Z.abs (num y) * 10) <= 2 ^ shift y /\
    decimal (tenths mod 10) = String c EmptyString /\
    format_float_1f y =
      (sign y ++ decimal (tenths / 10) ++ "." ++
       String c EmptyString)%string.
Proof.
  intros Hs. unfold format_float_1f.
  assert (0 < 2 ^ shift y) as Hp by (apply Z.pow_pos_nonneg; lia).
  destruct (round_half_even_nearest (Z.abs (num y) * 10) (2 ^ shift y)) as [Ht Hn];
    [lia|done|].
  set (t := round_half_even _ _) in *.
  destruct (decimal_digit (t mod 10)) as [c Hc]; [apply Z.mod_pos_bound; lia|].
  exists t, c. repeat split; try done. by rewrite Hc.
Qed.

(** C2, the failing input: an [int] too large for a [float].  The
    smallest such count is [2 ^ 1024 - 2 ^ 970]. *)
Lemma format_file_size_overflow :
  _format_file_size (2 ^ 1024) = Raise OverflowError /\
  _format_file_size (2 ^ 1024 - 2 ^ 970) = Raise OverflowError.
Proof. split; vm_compute; reflexivity. Qed.

(** C2, amended.  For every non-negative byte count below
    [2 ^ 1024 - 2 ^ 970], the counts Python can convert to a [float]
    (below [2 ^ 53] the conversion is exact), [_format_file_size] returns
    what the specification's procedure gives on the converted value:
    ["0B"] for 0, otherwise the value divided by 1024 while it is at
    least 1024 and a larger unit remains, rendered with one decimal place
    and followed by the unit; the loop of the code ends with its guard
    false, not for lack of fuel.  The rendering is a sign, a whole number, a
    point and one digit, spelling the number of tenths nearest to the
    value.  In particular 0, 1023, 1024 and 1048576 give ["0B"],
    ["1023.0B"], ["1.0KB"] and ["1.0MB"]. *)
Theorem format_file_size_below_overflow n :
  0 <= n < 2 ^ 1024 - 2 ^ 970 ->
  (exists x,
      int_to_float n = Ok x /\
      (n < 2 ^ 53 -> x = mkfloat n 0) /\
      _format_file_size n = Ok (spec_format x)) /\
  (forall v i,
      scale_loop (Z.to_nat (len size_names - 1)) (PyInt n) 0 = Ok (v, i) ->
      loop_guard v i = false) /\
  (forall y, 0 <= shift y ->
     exists tenths (c : ascii),
       0 <= tenths /\
       2 * Z.abs (tenths * 2 ^ shift y - Z.abs (num y) * 10) <= 2 ^ shift y /\
       decimal (tenths mod 10) = String c EmptyString /\
       format_float_1f y =
         (sign y ++ decimal (tenths / 10) ++ "." ++
          String c EmptyString)%string) /\
  _format_file_size 0 = Ok "0B"%string /\
  _format_file_size 1023 = Ok "1023.0B"%string /\
  _format_file_size 1024 = Ok "1.0KB"%string /\
  _format_file_size 1048576 = Ok "1.0MB"%string.
Proof.
  intros Hn. split; [|split; [|split; [apply format_float_1f_one_decimal|by vm_compute]]].
  2: { intros v i. apply scale_loop_exits. reflexivity. }
  destruct (int_to_float_finite n) as [x Hx]; [lia|].
  exists x. split; [done|]. split; [|by apply format_file_size_is_spec_format].
  intros Hs. rewrite int_to_float_small in Hx by lia. congruence.
Qed.

(** ** Listing *)

Global Instance newer_first_total : Total newer_first.
Proof. intros a b. unfold newer_first. lia. Qed.

Global Instance newer_first_trans : Transitive newer_first.
Proof. intros a b c. unfold newer_first. lia. Qed.

Lemma order_by_sorted l : StronglySorted newer_first (order_by_date_created_desc l).
Proof. apply StronglySorted_merge_sort; apply _. Qed.

Lemma order_by_perm l : order_by_date_created_desc l ≡ₚ l.
Proof. apply merge_sort_Permutation. Qed.

Lemma format_file_size_int n :
  int_column n -> _format_file_size n = Ok (spec_format (mkfloat n 0)).
Proof.
  intros Hn. apply format_file_size_is_spec_format, int_to_float_small.
  unfold int_column in Hn. change (2 ^ 53) with 9007199254740992. lia.
Qed.

Lemma format_summary e :
  int_column (File.size e.2) ->
  apply_cell 3 format_size_cell (select_summary e) = Ok (summary_row e).
Proof.
  intros He. unfold apply_cell, select_summary, summary_row, size_label.
  cbn [lookup list_lookup format_size_cell].
  rewrite (format_file_size_int _ He). reflexivity.
Qed.

Lemma format_found e :
  int_column (File.size e.2) ->
  apply_cell 3 format_size_cell (select_found e) = Ok (found_row e).
Proof.
  intros He. unfold apply_cell, select_found, found_row, size_label.
  cbn [lookup list_lookup format_size_cell].
  rewrite (format_file_size_int _ He). reflexivity.
Qed.

Lemma map_result_fmap {A B C} (f : B -> result C) (g : A -> B) (h : A -> C) l :
  Forall (fun a => f (g a) = Ok (h a)) l ->
  map_result f (g <$> l) = Ok (h <$> l).
Proof.
  induction 1 as [|a l Ha _ IH]; [reflexivity|].
  cbn [fmap list_fmap map_result]. change (list_fmap A B g l) with (g <$> l).
  by rewrite Ha, IH.
Qed.

Lemma stored_sizes_are_int d l :
  sizes_are_int d ->
  l ⊆ map_to_list (files d) ->
  Forall (fun e => int_column (File.size e.2)) l.
Proof.
  intros Hd Hl. apply Forall_forall. intros [file_id r] He. simpl.
  apply Hl in He. apply elem_of_map_to_list in He. by eapply Hd.
Qed.

Lemma get_all_files_accepted d :
  accepts SelectSummaries d ->
  sizes_are_int d ->
  get_all_files d =
    (Ok (mkframe summary_columns
           (summary_row <$> order_by_date_created_desc (map_to_list (files d)))), d).
Proof.
  intros Ha Hd. unfold get_all_files, with_connect, bind_prog, execute, accepts in *.
  simpl. rewrite Ha. simpl.
  assert (Forall (fun e => int_column (File.size e.2))
            (order_by_date_created_desc (map_to_list (files d)))) as Hs.
  { apply (stored_sizes_are_int d); [done|]. intros e. by rewrite order_by_perm. }
  destruct (order_by_date_created_desc (map_to_list (files d))) as [|e l]; [reflexivity|].
  change (select_summary <$> e :: l) with (select_summary e :: (select_summary <$> l)).
  cbv iota. unfold lift, apply_column. cbn [columns data].
  change (column_index "size" summary_columns) with (@Ok nat 3%nat). cbn [bind].
  change (select_summary e :: (select_summary <$> l)) with (select_summary <$> e :: l).
  rewrite (map_result_fmap _ _ summary_row).
  - reflexivity.
  - eapply Forall_impl; [exact Hs|]. intros. by apply format_summary.
Qed.

(** C7.  When the server accepts the query and the stored sizes are
    within the [INT] column, [get_all_files] returns a frame with the
    columns id, name, date_created, size and has_memo, holding one row
    per stored row: its id, name, creation time, size rendered by
    [_format_file_size], and ["Yes"] or ["No"] for a memo being there;
    the rows come newest first.  With no row stored the frame has those
    columns and no row. *)
Theorem get_all_files_lists_every_row d :
  accepts SelectSummaries d ->
  sizes_are_int d ->
  exists df l,
    get_all_files d = (Ok df, d) /\
    columns df = ["id"; "name"; "date_created"; "size"; "has_memo"]%string /\
    data df = summary_row <$> l /\
    l ≡ₚ map_to_list (files d) /\
    (forall file_id r, (file_id, r) ∈ l <-> files d !! file_id = Some r) /\
    StronglySorted newer_first l /\
    (files d = ∅ -> data df = []).
Proof.
  intros Ha Hd. rewrite get_all_files_accepted by done.
  eexists _, _. split; [reflexivity|]. cbn [columns data].
  split; [reflexivity|]. split; [reflexivity|].
  split; [apply order_by_perm|]. split; [|split; [apply order_by_sorted|]].
  - intros file_id r. rewrite order_by_perm. apply elem_of_map_to_list.
  - intros ->. rewrite map_to_list_empty. reflexivity.
Qed.

(** ** Searching *)

Lemma like_percent p t :
  like weight (percent :: p) t =
    like weight p t ||
    match t with
    | [] => false
    | _ :: t' => like weight (percent :: p) t'
    end.
Proof. destruct t; reflexivity. Qed.

Lemma like_plain c p t :
  plain_char c = true ->
  like weight (c :: p) t =
    match t with
    | [] => false
    | d :: t' => same_char weight c d && like weight p t'
    end.
Proof.
  unfold plain_char. intros Hc. apply negb_true_iff in Hc.
  apply orb_false_iff in Hc as [Hc Hb]. apply orb_false_iff in Hc as [Hp Hu].
  cbn [like]. rewrite Hp, Hu, Hb. reflexivity.
Qed.

Lemma like_percent_only t : like weight [percent] t = true.
Proof.
  induction t as [|c t IH]; [reflexivity|].
  rewrite like_percent, IH. apply orb_true_r.
Qed.

Lemma like_prefix term t :
  forallb plain_char term = true ->
  like weight (term ++ [percent]) t = starts_with_ci term t.
Proof.
  revert t. induction term as [|c term IH]; intros t Hp.
  - rewrite like_percent_only. by destruct t.
  - cbn [forallb] in Hp. apply andb_true_iff in Hp as [Hc Hp].
    cbn [app]. rewrite like_plain by done.
    destruct t as [|d t]; [reflexivity|]. cbn [starts_with_ci]. by rewrite IH.
Qed.

(** For a term of plain characters, [LIKE '%term%'] is containment. *)
Lemma like_contains term t :
  forallb plain_char term = true ->
  like weight ([percent] ++ term ++ [percent]) t = contains_ci term t.
Proof.
  intros Hp. induction t as [|c t IH].
  - cbn [app]. rewrite like_percent, like_prefix by done. reflexivity.
  - cbn [app] in *. rewrite like_percent, like_prefix by done.
    cbn [contains_ci]. by rewrite IH.
Qed.

Lemma where_like_mentions term e :
  forallb plain_char term = true ->
  where_like ([percent] ++ term ++ [percent]) e = mentions term e.
Proof.
  intros Hp. unfold where_like, mentions, like_column, contains_ci_column.
  rewrite like_contains by done.
  destruct (File.content e.2); [by rewrite like_contains|reflexivity].
Qed.

(** Containment, said with an occurrence: some stretch of the text has
    the characters of the term, up to the collation. *)
Lemma starts_with_ci_occurs term text :
  starts_with_ci term text = true <->
  exists mid post,
    text = mid ++ post /\ Forall2 (fun a b => weight a = weight b) term mid.
Proof.
  revert text. induction term as [|a term IH]; intros text.
  - split; [|by destruct text]. intros _. exists [], text. split; [done|constructor].
  - destruct text as [|b text]; cbn [starts_with_ci].
    + split; [done|]. intros (mid & post & Ht & Hf).
      inversion Hf; subst. discriminate.
    + rewrite andb_true_iff, IH. unfold same_char. rewrite Z.eqb_eq. split.
      * intros (Hab & mid & post & -> & Hf). exists (b :: mid), post.
        split; [done|]. by constructor.
      * intros (mid & post & Ht & Hf). inversion Hf as [|a' b' term' mid' Hab Hf']; subst.
        injection Ht as -> ->. split; [done|]. by exists mid', post.
Qed.

Lemma contains_ci_occurs term text :
  contains_ci term text = true <->
  exists pre mid post,
    text = pre ++ mid ++ post /\ Forall2 (fun a b => weight a = weight b) term mid.
Proof.
  induction text as [|b text IH]; cbn [contains_ci].
  - rewrite orb_false_r, starts_with_ci_occurs. split.
    + intros (mid & post & Ht & Hf). by exists [], mid, post.
    + intros (pre & mid & post & Ht & Hf).
      symmetry in Ht. apply app_eq_nil in Ht as [-> Ht]. by exists mid, post.
  - rewrite orb_true_iff, starts_with_ci_occurs, IH. split.
    + intros [(mid & post & Ht & Hf)|(pre & mid & post & Ht & Hf)].
      * by exists [], mid, post.
      * exists (b :: pre), mid, post. by rewrite Ht.
    + intros (pre & mid & post & Ht & Hf). destruct pre as [|b' pre].
      * left. by exists mid, post.
      * injection Ht as -> ->. right. by exists pre, mid, post.
Qed.

Lemma search_files_accepted term d :
  accepts (SearchFiles ([percent] ++ term ++ [percent])) d ->
  sizes_are_int d ->
  search_files term d =
    (Ok (mkframe found_columns
           (found_row <$> order_by_date_created_desc
              (filter (fun e => where_like ([percent] ++ term ++ [percent]) e = true)
                      (map_to_list (files d))))), d).
Proof.
  intros Ha Hd. unfold search_files, with_connect, bind_prog, execute, accepts in *.
  cbn [connect working committed]. rewrite Ha. cbn [perform fetchall ret close committed].
  set (found := order_by_date_created_desc _).
  assert (Forall (fun e => int_column (File.size e.2)) found) as Hs.
  { apply (stored_sizes_are_int d); [done|]. intros e. unfold found.
    rewrite order_by_perm. rewrite list_elem_of_filter. by intros [_ ?]. }
  destruct found as [|e l]; [reflexivity|].
  change (select_found <$> e :: l) with (select_found e :: (select_found <$> l)).
  cbv iota. unfold lift, apply_column. cbn [columns data].
  change (column_index "size" found_columns) with (@Ok nat 3%nat). cbn [bind].
  change (select_found e :: (select_found <$> l)) with (select_found <$> e :: l).
  rewrite (map_result_fmap _ _ found_row).
  - reflexivity.
  - eapply Forall_impl; [exact Hs|]. intros. by apply format_found.
Qed.

(** C6, amended.  For a search term with none of the characters [%],
    [_] and backslash, when the server accepts the query and the stored
    sizes are within the [INT] column, [search_files] returns a frame
    with the columns id, name, date_created and size whose rows are those
    of exactly the stored rows whose name or content contains the term
    up to the collation, each once, newest first. *)
Theorem search_files_finds_plain_term term d :
  forallb plain_char term = true ->
  accepts (SearchFiles ([percent] ++ term ++ [percent])) d ->
  sizes_are_int d ->
  exists df l,
    search_files term d = (Ok df, d) /\
    columns df = ["id"; "name"; "date_created"; "size"]%string /\
    data df = found_row <$> l /\
    l ≡ₚ filter (fun e => mentions term e = true) (map_to_list (files d)) /\
    (forall file_id r,
        (file_id, r) ∈ l <->
        files d !! file_id = Some r /\
        ((exists pre mid post,
             File.name r = pre ++ mid ++ post /\
             Forall2 (fun a b => weight a = weight b) term mid) \/
         (exists text pre mid post,
             File.content r = Some text /\
             text = pre ++ mid ++ post /\
             Forall2 (fun a b => weight a = weight b) term mid))) /\
    StronglySorted newer_first l.
Proof.
  intros Hp Ha Hd. rewrite search_files_accepted by done.
  eexists _, _. split; [reflexivity|]. cbn [columns data].
  split; [reflexivity|]. split; [reflexivity|].
  assert (filter (fun e => where_like ([percent] ++ term ++ [percent]) e = true)
                 (map_to_list (files d)) =
          filter (fun e => mentions term e = true) (map_to_list (files d))) as ->.
  { apply list_filter_iff. intros e. by rewrite where_like_mentions. }
  split; [apply order_by_perm|]. split; [|apply order_by_sorted].
  intros file_id r. rewrite order_by_perm, list_elem_of_filter, elem_of_map_to_list.
  unfold mentions, contains_ci_column. cbn [fst snd].
  rewrite orb_true_iff, contains_ci_occurs. split.
  - intros [[Hn|Hc] Hr]; (split; [done|]); [by left|right].
    destruct (File.content r) as [text|]; [|done].
    apply contains_ci_occurs in Hc as (pre & mid & post & Ht & Hf).
    by exists text, pre, mid, post.
  - intros [Hr [Hn|(text & pre & mid & post & Hc & Ht & Hf)]]; (split; [|done]);
      [by left|right].
    rewrite Hc. apply contains_ci_occurs. by exists pre, mid, post.
Qed.

(** ** Runs of the manager *)

Lemma effect_same d : effect d d.
Proof. apply effect_none; lia || done. Qed.

Lemma run_effect c d : effect d (run c d).
Proof.
  destruct c as [name content owner memo|file_id| |file_id name content memo|file_id|term|t];
    cbn [run].
  - destruct (create_file_cases name content owner memo d) as [[e ->]| ->].
    + apply effect_same.
    + apply effect_insert.
  - rewrite get_file_reads. apply effect_same.
  - rewrite get_all_files_reads. apply effect_same.
  - assert (Decision (encodable_option content)) as [He|He]
      by (destruct content; simpl; apply _).
    + destruct (decide (updates_of name content memo = [])) as [Hn|Hn].
      { apply updates_of_nil in Hn as (-> & -> & ->). apply effect_same. }
      destruct (server_fault (UpdateFile (updates_of name content memo) file_id) d)
        as [e|] eqn:Hf.
      { rewrite (update_file_rejected _ _ _ _ _ e) by done. apply effect_same. }
      rewrite update_file_accepted by done.
      destruct (files d !! file_id) as [r|] eqn:Hr; [|apply effect_same].
      by apply effect_update.
    + destruct content as [c|]; [|by destruct He].
      rewrite update_file_unencodable by done. apply effect_same.
  - destruct (server_fault (DeleteFile file_id) d) as [e|] eqn:Hf.
    { rewrite (delete_file_rejected _ _ e) by done. apply effect_same. }
    rewrite delete_file_accepted by done.
    destruct (files d !! file_id); [apply effect_delete|apply effect_same].
  - rewrite search_files_reads. apply effect_same.
  - apply effect_none; cbn; lia || done.
Qed.

Lemma effect_counter d d' : effect d d' -> auto_increment d <= auto_increment d'.
Proof. destruct 1; cbn; lia. Qed.

Lemma effect_clock d d' : effect d d' -> now d <= now d'.
Proof. destruct 1; cbn; lia. Qed.

Lemma effect_ids_below d d' :
  effect d d' -> ids_below_counter d -> ids_below_counter d'.
Proof.
  intros He Hd. destruct He as [d' Hf Ha _| | |]; intros j r'; cbn.
  - rewrite Hf, Ha. apply Hd.
  - rewrite lookup_insert. case_decide as Hj; [intros _; lia|].
    intros Hr. apply Hd in Hr. lia.
  - rewrite lookup_insert. case_decide as Hj; [subst; intros _; by eapply Hd|apply Hd].
  - rewrite lookup_delete. case_decide; [done|apply Hd].
Qed.

Lemma effect_sizes_match d d' :
  effect d d' -> sizes_match d -> sizes_match d'.
Proof.
  intros He Hd. destruct He as [d' Hf _ _| | |]; intros j r' c; cbn.
  - rewrite Hf. apply Hd.
  - rewrite lookup_insert. case_decide as Hj; [|apply Hd].
    intros [= <-]. cbn. by intros [= <-].
  - rewrite lookup_insert. case_decide as Hj; [|apply Hd].
    intros [= <-]. apply update_row_sizes_match. intros c' Hc'. by eapply Hd.
  - rewrite lookup_delete. case_decide; [done|apply Hd].
Qed.

Lemma effect_rows_have_content d d' :
  effect d d' -> rows_have_content d -> rows_have_content d'.
Proof.
  intros He Hd. destruct He as [d' Hf _ _| |file_id name content memo r Hr|];
    intros j r'; cbn.
  - rewrite Hf. apply Hd.
  - rewrite lookup_insert. case_decide as Hj; [|apply Hd]. intros [= <-]. by eexists.
  - rewrite lookup_insert. case_decide as Hj; [|apply Hd]. intros [= <-].
    destruct (update_row_columns (updates_of name content memo) (now d) r)
      as (_ & -> & _).
    rewrite assigned. cbn. destruct content; [by eexists|by eapply Hd].
  - rewrite lookup_delete. case_decide; [done|apply Hd].
Qed.

(** A free id below the counter stays free. *)
Lemma effect_keeps_free d d' file_id :
  effect d d' -> file_id < auto_increment d ->
  files d !! file_id = None -> files d' !! file_id = None.
Proof.
  intros He Hlt Hn. destruct He as [d' Hf _ _| |j name content memo r Hr|j]; cbn.
  - by rewrite Hf.
  - rewrite lookup_insert_ne by lia. done.
  - rewrite lookup_insert_ne; [done|]. intros ->. congruence.
  - rewrite lookup_delete. by case_decide.
Qed.

Lemma run_all_snoc cs c d : run_all (cs ++ [c]) d = run c (run_all cs d).
Proof. unfold run_all. by rewrite foldl_app. Qed.

Lemma run_all_counter cs d : auto_increment d <= auto_increment (run_all cs d).
Proof.
  induction cs as [|c cs IH] using rev_ind; [done|].
  rewrite run_all_snoc. pose proof (effect_counter _ _ (run_effect c (run_all cs d))). lia.
Qed.

Lemma run_all_ids_below cs d : ids_below_counter d -> ids_below_counter (run_all cs d).
Proof.
  intros Hd. induction cs as [|c cs IH] using rev_ind; [done|].
  rewrite run_all_snoc. eapply effect_ids_below; [apply run_effect|done].
Qed.

Lemma run_all_keeps_free cs d file_id :
  file_id < auto_increment d ->
  files d !! file_id = None -> files (run_all cs d) !! file_id = None.
Proof.
  intros Hlt Hn. induction cs as [|c cs IH] using rev_ind; [done|].
  rewrite run_all_snoc. eapply effect_keeps_free; [apply run_effect| |done].
  pose proof (run_all_counter cs d). lia.
Qed.

(** X1.  Whatever calls are made on a table that started empty, and
    however each of them ends, the database they leave has on every row a
    content and, as size, the UTF-8 byte length of that content; every id
    in use is at least 1 and below the [AUTO_INCREMENT] counter; and the
    clock has not gone back. *)
Theorem reachable_databases_are_well_formed t cs :
  sizes_match (run_all cs (empty_db t)) /\
  rows_have_content (run_all cs (empty_db t)) /\
  ids_below_counter (run_all cs (empty_db t)) /\
  (forall file_id r, files (run_all cs (empty_db t)) !! file_id = Some r -> 1 <= file_id) /\
  t <= now (run_all cs (empty_db t)).
Proof.
  induction cs as [|c cs (Hs & Hc & Hi & Hp & Ht)] using rev_ind.
  - split; [|split; [|split; [|split]]]; try (cbn; lia);
      intros j r; cbn; rewrite lookup_empty; discriminate.
  - rewrite run_all_snoc. pose proof (run_effect c (run_all cs (empty_db t))) as He.
    split; [by eapply effect_sizes_match|].
    split; [by eapply effect_rows_have_content|].
    split; [by eapply effect_ids_below|]. split.
    + intros j r Hr. destruct (Z.lt_ge_cases j 1) as [Hlt|]; [|done]. exfalso.
      assert (files (run_all cs (empty_db t)) !! j = None) as Hn.
      { destruct (files (run_all cs (empty_db t)) !! j) eqn:E; [|done].
        apply Hp in E. lia. }
      assert (j < auto_increment (run_all cs (empty_db t))) as Hj.
      { pose proof (run_all_counter cs (empty_db t)) as Hm. cbn in Hm. lia. }
      pose proof (effect_keeps_free _ _ j He Hj Hn). congruence.
    + pose proof (effect_clock _ _ He). lia.
Qed.

(** X2.  On a database whose counter is above the ids in use, an accepted
    [create_file] returns the counter as id, an id no row had; the new
    row carries the arguments, the current time as both dates and the
    UTF-8 byte length as size; every other row is as before, so the table
    has one row more; and the counter moves up by one. *)
Theorem create_file_adds_one_row name content owner memo d :
  ids_below_counter d ->
  encodable content ->
  accepts (InsertFile name content owner memo (utf8_byte_length content)) d ->
  exists d',
    create_file name content owner memo d = (Ok (auto_increment d), d') /\
    files d !! auto_increment d = None /\
    files d' !! auto_increment d =
      Some (File.mk name (Some content) (now d) (now d) owner memo
                    (utf8_byte_length content)) /\
    (forall j, j <> auto_increment d -> files d' !! j = files d !! j) /\
    size (files d') = S (size (files d)) /\
    auto_increment d' = auto_increment d + 1.
Proof.
  intros Hd He Ha. rewrite create_file_accepted by done.
  assert (files d !! auto_increment d = None) as Hfree.
  { destruct (files d !! auto_increment d) as [r|] eqn:Hr; [|done].
    apply Hd in Hr. lia. }
  eexists. split; [reflexivity|]. cbn. split; [done|].
  split; [by rewrite lookup_insert_eq|]. split.
  { intros j Hj. by rewrite lookup_insert_ne. }
  split; [by apply map_size_insert_None|done].
Qed.

(** X3.  Ids are not reused: after a [create_file] returned an id, a
    later [create_file] returns a greater one, whatever calls were made
    in between, deletions included. *)
Theorem create_file_ids_increase name1 content1 owner1 memo1 d id1 d1
    cs name2 content2 owner2 memo2 id2 d2 :
  create_file name1 content1 owner1 memo1 d = (Ok id1, d1) ->
  create_file name2 content2 owner2 memo2 (run_all cs d1) = (Ok id2, d2) ->
  id1 < id2.
Proof.
  intros H1 H2.
  destruct (create_file_cases name1 content1 owner1 memo1 d) as [[e He]|He];
    rewrite He in H1; [discriminate|]. injection H1 as <- <-.
  destruct (create_file_cases name2 content2 owner2 memo2 (run_all cs
              (mkdb (<[auto_increment d := inserted name1 content1 owner1 memo1 d]> (files d))
                    (auto_increment d + 1) (now d)))) as [[e He2]|He2];
    rewrite He2 in H2; [discriminate|]. injection H2 as <- <-.
  match goal with |- _ < auto_increment (run_all cs ?x) =>
    pose proof (run_all_counter cs x) as Hm end.
  cbn in Hm. lia.
Qed.

(** X4.  A deleted file stays deleted: once [delete_file] returned
    [True] on a database whose counter is above the ids in use, no later
    call brings a row with that id back, and [get_file] on it returns
    [None] whenever the server answers. *)
Theorem deleted_id_stays_absent file_id d d' cs :
  ids_below_counter d ->
  delete_file file_id d = (Ok true, d') ->
  files (run_all cs d') !! file_id = None /\
  (accepts (SelectFile file_id) (run_all cs d') ->
   get_file file_id (run_all cs d') = (Ok None, run_all cs d')).
Proof.
  intros Hd Hdel.
  assert (files d' !! file_id = None /\ file_id < auto_increment d') as [Hn Hlt].
  { destruct (server_fault (DeleteFile file_id) d) as [e|] eqn:Hf.
    { rewrite (delete_file_rejected _ _ e) in Hdel by done. discriminate. }
    rewrite delete_file_accepted in Hdel by done.
    destruct (files d !! file_id) as [r|] eqn:Hr; [|discriminate].
    injection Hdel as <-. cbn. split; [apply lookup_delete_eq|by eapply Hd]. }
  assert (files (run_all cs d') !! file_id = None) as Hgone
    by (by apply run_all_keeps_free).
  split; [done|]. intros Ha. rewrite get_file_accepted by done. by rewrite Hgone.
Qed.

(** X5.  An accepted [update_file] on a stored row, read back with
    [get_file]: each field supplied has the new value, each field not
    supplied the old one; the size is the UTF-8 byte length of a supplied
    content and the old size otherwise; id, owner and creation time are
    the old ones. *)
Theorem update_then_get file_id name content memo d r :
  files d !! file_id = Some r ->
  encodable_option content ->
  updates_of name content memo <> [] ->
  accepts (UpdateFile (updates_of name content memo) file_id) d ->
  exists d',
    update_file file_id name content memo d = (Ok true, d') /\
    (accepts (SelectFile file_id) d' ->
     exists record : gmap string value,
       get_file file_id d' = (Ok (Some record), d') /\
       record !! "id"%string = Some (Int file_id) /\
       record !! "name"%string = Some (Text (default (File.name r) name)) /\
       record !! "content"%string =
         Some (match content with Some c => Text c | None => nullable (File.content r) end) /\
       record !! "memo"%string =
         Some (match memo with Some m => Text m | None => nullable (File.memo r) end) /\
       record !! "size"%string =
         Some (Int (match content with
                    | Some c => utf8_byte_length c
                    | None => File.size r
                    end)) /\
       record !! "owner"%string = Some (nullable (File.owner r)) /\
       record !! "date_created"%string = Some (Timestamp (File.date_created r))).
Proof.
  intros Hr He Hne Ha. rewrite update_file_accepted by done. rewrite Hr.
  eexists. split; [reflexivity|]. intros Hs.
  rewrite get_file_accepted by done. cbn. rewrite lookup_insert_eq. cbn.
  eexists. split; [reflexivity|]. unfold record_of.
  destruct (update_row_columns (updates_of name content memo) (now d) r)
    as (Hn & Hc & Hdc & Ho & Hm & Hz & _).
  rewrite assigned in Hn, Hc, Hdc, Ho, Hm, Hz. cbn in Hn, Hc, Hdc, Ho, Hm, Hz.
  repeat split.
  - change (Some (Text (File.name (update_row (updates_of name content memo) (now d) r)))
            = Some (Text (default (File.name r) name))). by rewrite Hn.
  - change (Some (nullable (File.content (update_row (updates_of name content memo) (now d) r)))
            = Some (match content with
                    | Some c => Text c | None => nullable (File.content r) end)).
    rewrite Hc. by destruct content.
  - change (Some (nullable (File.memo (update_row (updates_of name content memo) (now d) r)))
            = Some (match memo with
                    | Some m => Text m | None => nullable (File.memo r) end)).
    rewrite Hm. by destruct memo.
  - change (Some (Int (File.size (update_row (updates_of name content memo) (now d) r)))
            = Some (Int (match content with
                         | Some c => utf8_byte_length c | None => File.size r end))).
    by rewrite Hz.
  - change (Some (nullable (File.owner (update_row (updates_of name content memo) (now d) r)))
            = Some (nullable (File.owner r))). by rewrite Ho.
  - change (Some (Timestamp (File.date_created
              (update_row (updates_of name content memo) (now d) r)))
            = Some (Timestamp (File.date_created r))). by rewrite Hdc.
Qed.

(** X6.  An id that no row has: when the server answers, [get_file]
    returns [None], and [update_file] and [delete_file] return [False]
    and leave the database as it was. *)
Theorem missing_id_is_reported file_id d :
  files d !! file_id = None ->
  (accepts (SelectFile file_id) d -> get_file file_id d = (Ok None, d)) /\
  (forall name content memo,
      encodable_option content ->
      updates_of name content memo <> [] ->
      accepts (UpdateFile (updates_of name content memo) file_id) d ->
      update_file file_id name content memo d = (Ok false, d)) /\
  (accepts (DeleteFile file_id) d -> delete_file file_id d = (Ok false, d)).
Proof.
  intros Hn. split; [|split].
  - intros Ha. rewrite get_file_accepted by done. by rewrite Hn.
  - intros name content memo He Hne Ha. rewrite update_file_accepted by done.
    by rewrite Hn.
  - intros Ha. rewrite delete_file_accepted by done. by rewrite Hn.
Qed.

(** X7.  Whatever its arguments and however it ends, [update_file] on a
    stored row keeps the row stored, with its owner and creation time,
    with every field that was not supplied, and with the size when no
    content was supplied; a memo that was there is not removed; and rows
    with other ids are as before. *)
Theorem update_file_frame file_id name content memo d r res d' :
  files d !! file_id = Some r ->
  update_file file_id name content memo d = (res, d') ->
  (forall j, j <> file_id -> files d' !! j = files d !! j) /\
  exists r',
    files d' !! file_id = Some r' /\
    File.owner r' = File.owner r /\
    File.date_created r' = File.date_created r /\
    (name = None -> File.name r' = File.name r) /\
    (content = None -> File.content r' = File.content r /\ File.size r' = File.size r) /\
    (memo = None -> File.memo r' = File.memo r) /\
    (is_Some (File.memo r) -> is_Some (File.memo r')).
Proof.
  intros Hr Hu.
  assert ((res, d') = (res, d) \/
          d' = mkdb (<[file_id := update_row (updates_of name content memo) (now d) r]>
                       (files d)) (auto_increment d) (now d)) as [Hsame|Hd'].
  { assert (Decision (encodable_option content)) as [He|He]
      by (destruct content; simpl; apply _).
    - destruct (decide (updates_of name content memo = [])) as [Hn|Hn].
      { apply updates_of_nil in Hn as (-> & -> & ->).
        rewrite update_file_nothing in Hu. injection Hu as <- <-. by left. }
      destruct (server_fault (UpdateFile (updates_of name content memo) file_id) d)
        as [e|] eqn:Hf.
      { rewrite (update_file_rejected _ _ _ _ _ e) in Hu by done.
        injection Hu as <- <-. by left. }
      rewrite update_file_accepted in Hu by done. rewrite Hr in Hu.
      injection Hu as <- <-. by right.
    - destruct content as [c|]; [|by destruct He].
      rewrite update_file_unencodable in Hu by done. injection Hu as <- <-. by left. }
  - injection Hsame as ->. split; [done|]. exists r. repeat split; done.
  - subst d'. cbn. split.
    { intros j Hj. by rewrite lookup_insert_ne. }
    eexists. rewrite lookup_insert_eq. split; [reflexivity|].
    destruct (update_row_columns (updates_of name content memo) (now d) r)
      as (-> & -> & -> & -> & -> & -> & _).
    rewrite assigned. cbn.
    split; [done|]. split; [done|]. split; [by intros ->|].
    split; [by intros ->|]. split; [by intros ->|].
    destruct memo; [by eexists|done].
Qed.

(** ** Searching and listing together *)

Lemma found_row_of_summary e : found_row e = take 4 (summary_row e).
Proof. reflexivity. Qed.

Lemma filter_all {A} (P : A -> Prop) `{forall x, Decision (P x)} (l : list A) :
  Forall P l -> filter P l = l.
Proof.
  induction 1 as [|x l Hx _ IH]; [done|]. rewrite filter_cons_True by done. by rewrite IH.
Qed.

Lemma like_everything t : like weight ([percent] ++ [] ++ [percent]) t = true.
Proof.
  cbn [app]. rewrite like_percent. rewrite like_percent_only. reflexivity.
Qed.

(** X8.  For every search term, wildcards included, when the server
    answers and the stored sizes are within the [INT] column:
    [search_files] returns rows of stored files only, each at most once,
    newest first, namely of the files whose name or content the [LIKE]
    pattern made of the term between two [%] matches; and each row it
    returns is a row of [get_all_files] without the has_memo cell. *)
Theorem search_files_rows_are_listed term d :
  accepts (SearchFiles ([percent] ++ term ++ [percent])) d ->
  accepts SelectSummaries d ->
  sizes_are_int d ->
  exists found listed l,
    search_files term d = (Ok found, d) /\
    get_all_files d = (Ok listed, d) /\
    data found = found_row <$> l /\
    NoDup l.*1 /\
    StronglySorted newer_first l /\
    (forall file_id r,
        (file_id, r) ∈ l <->
        files d !! file_id = Some r /\
        (like weight ([percent] ++ term ++ [percent]) (File.name r) = true \/
         exists text, File.content r = Some text /\
                      like weight ([percent] ++ term ++ [percent]) text = true)) /\
    (forall row, row ∈ data found -> exists row', row' ∈ data listed /\ row = take 4 row') /\
    (length (data found) <= length (data listed))%nat.
Proof.
  intros Hs Hl Hd. rewrite search_files_accepted, get_all_files_accepted by done.
  set (P := fun e : Z * File.row =>
              where_like ([percent] ++ term ++ [percent]) e = true).
  eexists _, _, _. split; [reflexivity|]. split; [reflexivity|]. cbn [data].
  split; [reflexivity|].
  assert (forall e, e ∈ order_by_date_created_desc (filter P (map_to_list (files d))) ->
                    e ∈ order_by_date_created_desc (map_to_list (files d))) as Hsub.
  { intros e. rewrite !order_by_perm, list_elem_of_filter. by intros [_ ?]. }
  split; [|split; [apply order_by_sorted|split; [|split]]].
  - rewrite order_by_perm. apply NoDup_fmap_fst.
    + intros i x y Hx Hy. apply list_elem_of_filter in Hx as [_ Hx], Hy as [_ Hy].
      apply elem_of_map_to_list in Hx, Hy. congruence.
    + apply NoDup_filter, NoDup_map_to_list.
  - intros file_id r. rewrite order_by_perm, list_elem_of_filter, elem_of_map_to_list.
    unfold P, where_like, like_column. cbn [fst snd]. rewrite orb_true_iff. split.
    + intros [[Hn|Hc] Hr]; (split; [done|]); [by left|right].
      destruct (File.content r) as [text|]; [by exists text|done].
    + intros [Hr [Hn|(text & Hc & Ht)]]; (split; [|done]); [by left|right].
      by rewrite Hc.
  - intros row Hrow. apply list_elem_of_fmap in Hrow as (e & -> & He).
    exists (summary_row e). split; [|apply found_row_of_summary].
    apply list_elem_of_fmap. exists e. split; [done|]. by apply Hsub.
  - rewrite !length_fmap.
    rewrite (Permutation_length (order_by_perm _)), (Permutation_length (order_by_perm _)).
    apply length_filter.
Qed.

(** Two lists sorted newest first that hold the same rows are the same
    list when no two of the rows share a creation time. *)
Lemma newest_first_unique (l1 l2 : list (Z * File.row)) :
  StronglySorted newer_first l1 ->
  StronglySorted newer_first l2 ->
  l1 ≡ₚ l2 ->
  (forall a b, a ∈ l1 -> b ∈ l1 ->
               File.date_created a.2 = File.date_created b.2 -> a = b) ->
  l1 = l2.
Proof.
  intros H1 H2 Hp Hd. apply (StronglySorted_unique_strong newer_first); [|done..].
  intros a b Ha Hb Hab Hba. apply Hd; [done|by rewrite Hp|].
  unfold newer_first in *. lia.
Qed.

(** X9.  Searching for the empty string finds every file: when the
    server answers and the stored sizes are within the [INT] column,
    [search_files("")] returns the rows of [get_all_files] without the
    has_memo cell, each once, and both come newest first.  Rows created
    at the same time may come in either order in each of the two; when
    no two stored files share a creation time, the two results list the
    files in the same order. *)
Theorem search_files_empty_term_lists_all d :
  accepts (SearchFiles ([percent] ++ [] ++ [percent])) d ->
  accepts SelectSummaries d ->
  sizes_are_int d ->
  exists found listed lf ll,
    search_files [] d = (Ok found, d) /\
    get_all_files d = (Ok listed, d) /\
    data found = found_row <$> lf /\
    data listed = summary_row <$> ll /\
    lf ≡ₚ map_to_list (files d) /\
    ll ≡ₚ map_to_list (files d) /\
    StronglySorted newer_first lf /\
    StronglySorted newer_first ll /\
    data found ≡ₚ take 4 <$> data listed /\
    ((forall i j ri rj,
         files d !! i = Some ri -> files d !! j = Some rj ->
         File.date_created ri = File.date_created rj -> i = j) ->
     data found = take 4 <$> data listed).
Proof.
  intros Hs Hl Hd. rewrite search_files_accepted, get_all_files_accepted by done.
  eexists _, _, _, _. split; [reflexivity|]. split; [reflexivity|]. cbn [data].
  split; [reflexivity|]. split; [reflexivity|].
  assert (filter (fun e => where_like ([percent] ++ [] ++ [percent]) e = true)
                 (map_to_list (files d)) = map_to_list (files d)) as Hall.
  { apply filter_all. apply Forall_forall. intros e _. unfold where_like.
    by rewrite like_everything. }
  set (lf := order_by_date_created_desc
               (filter (fun e => where_like ([percent] ++ [] ++ [percent]) e = true)
                       (map_to_list (files d)))).
  set (ll := order_by_date_created_desc (map_to_list (files d))).
  assert (lf ≡ₚ map_to_list (files d)) as Hpf
    by (unfold lf; rewrite order_by_perm; by rewrite Hall).
  assert (ll ≡ₚ map_to_list (files d)) as Hpl by apply order_by_perm.
  assert (StronglySorted newer_first lf) as Hsf by apply order_by_sorted.
  assert (StronglySorted newer_first ll) as Hsl by apply order_by_sorted.
  assert ((take 4 <$> (summary_row <$> ll)) = found_row <$> ll) as Htake.
  { rewrite <- list_fmap_compose. apply list_fmap_ext. intros _ e _. reflexivity. }
  do 4 (split; [done|]). rewrite Htake. split.
  - apply fmap_Permutation. by rewrite Hpf, Hpl.
  - intros Hdistinct. f_equal. apply newest_first_unique; try done.
    + by rewrite Hpf, Hpl.
    + intros [i ri] [j rj] Hi Hj Hdate. rewrite Hpf in Hi, Hj.
      apply elem_of_map_to_list in Hi, Hj. cbn in Hdate.
      assert (i = j) as -> by (by eapply Hdistinct). congruence.
Qed.

(** ** The connection manager *)


(** ** Uploads and the table *)

Lemma attempt_cases file_info d :
  (exists e, attempt file_info d = (Raise e, d)) \/
  (exists content,
      read_text (datapath file_info) = Ok content /\
      attempt file_info d =
        (Ok (auto_increment d),
         mkdb (<[auto_increment d := inserted (info_name file_info) content None None d]>
                 (files d))
              (auto_increment d + 1) (now d))).
Proof.
  unfold attempt, bind_prog, lift.
  destruct (read_text (datapath file_info)) as [content|e]; [|by left; eexists].
  destruct (create_file_cases (info_name file_info) content None None d) as [[e ->]| ->].
  - left. by eexists.
  - right. by exists content.
Qed.

Lemma upload_one_unreadable file_info s e :
  read_text (datapath file_info) = Raise e ->
  upload_one file_info s =
    mksession (db s) (notifications s ++ [Error (info_name file_info) e]).
Proof.
  intros Hread. pose proof (upload_one_outcome file_info s) as Ho.
  unfold attempt, bind_prog, lift in Ho. rewrite Hread in Ho. by destruct Ho.
Qed.

(** X11.  Uploads when the file cannot be read.  The handler calls
    [read_text] on [file_info["datapath"]]; shiny hands the path over as
    a [str], which has no [read_text], so the call raises
    ([AttributeError]) for every file.  Whenever reading raises for every
    file of the list, nothing reaches the server: the database is as it
    was, and the handler shows, in list order, one error notice per file
    with the exception reading raised, and no success notice. *)
Theorem upload_stores_nothing_when_reading_raises files_info s :
  Forall (fun file_info => exists e, read_text (datapath file_info) = Raise e) files_info ->
  db (upload_files (Some files_info) s) = db s /\
  exists ns,
    notifications (upload_files (Some files_info) s) = notifications s ++ ns /\
    Forall2 (fun file_info n =>
               exists e, read_text (datapath file_info) = Raise e /\
                         n = Error (info_name file_info) e) files_info ns /\
    filter succeeded ns = [].
Proof.
  intros Hall. revert s. induction Hall as [|f fs [e He] _ IH]; intros s.
  - split; [done|]. exists []. split; [by rewrite app_nil_r|]. split; [constructor|done].
  - change (upload_files (Some (f :: fs)) s) with (upload_files (Some fs) (upload_one f s)).
    destruct (IH (upload_one f s)) as (Hdb & ns & Hns & Hf2 & Hnone).
    rewrite (upload_one_unreadable f s e He) in Hdb, Hns |- *.
    cbn [db notifications] in *.
    split; [done|]. exists (Error (info_name f) e :: ns).
    split; [by rewrite Hns, <- app_assoc|]. split.
    + constructor; [by exists e|done].
    + rewrite filter_cons_False by (cbn; tauto). done.
Qed.

Lemma upload_one_grows file_info s :
  ids_below_counter (db s) ->
  ids_below_counter (db (upload_one file_info s)) /\
  (forall j r, files (db s) !! j = Some r ->
               files (db (upload_one file_info s)) !! j = Some r) /\
  (forall j r, files (db (upload_one file_info s)) !! j = Some r ->
               files (db s) !! j = None ->
               File.owner r = None /\ File.memo r = None) /\
  (size (files (db (upload_one file_info s))) + length (filter succeeded (notifications s))
   = size (files (db s)) + length (filter succeeded (notifications (upload_one file_info s))))%nat.
Proof.
  intros Hd. pose proof (upload_one_outcome file_info s) as Ho.
  destruct (attempt_cases file_info (db s)) as [[e He]|(content & _ & He)];
    rewrite He in Ho.
  - destruct Ho as [_ ->]. cbn. split; [done|]. split; [done|].
    split; [intros j r ? ?; congruence|].
    rewrite filter_app, length_app. cbn. case_decide; [done|]. cbn. lia.
  - rewrite Ho. cbn.
    assert (files (db s) !! auto_increment (db s) = None) as Hfree.
    { destruct (files (db s) !! auto_increment (db s)) as [r|] eqn:Hr; [|done].
      apply Hd in Hr. lia. }
    split; [|split; [|split]].
    + intros j r. cbn. rewrite lookup_insert. case_decide; [intros _; lia|].
      intros Hr. apply Hd in Hr. lia.
    + intros j r Hr. rewrite lookup_insert_ne; [done|]. intros <-. congruence.
    + intros j r. rewrite lookup_insert. case_decide; [|congruence].
      by intros [= <-] _.
    + rewrite map_size_insert_None by done.
      rewrite filter_app, length_app. cbn. case_decide; [|done]. cbn. lia.
Qed.

(** X12.  A whole upload.  On a database whose counter is above the
    ids in use, however many of the files fail: every row stored before
    is still there unchanged, every row added has neither owner nor memo,
    and the table has grown by exactly the number of success notices. *)
Theorem upload_files_only_adds files_info s :
  ids_below_counter (db s) ->
  ids_below_counter (db (upload_files (Some files_info) s)) /\
  (forall j r, files (db s) !! j = Some r ->
               files (db (upload_files (Some files_info) s)) !! j = Some r) /\
  (forall j r, files (db (upload_files (Some files_info) s)) !! j = Some r ->
               files (db s) !! j = None ->
               File.owner r = None /\ File.memo r = None) /\
  (size (files (db (upload_files (Some files_info) s)))
     + length (filter succeeded (notifications s))
   = size (files (db s))
     + length (filter succeeded (notifications (upload_files (Some files_info) s))))%nat.
Proof.
  revert s. induction files_info as [|f fs IH]; intros s Hd.
  - cbn. split; [done|]. split; [done|]. split; [intros; congruence|lia].
  - destruct (upload_one_grows f s Hd) as (Hd1 & Hk1 & Hn1 & Hc1).
    destruct (IH (upload_one f s) Hd1) as (Hd2 & Hk2 & Hn2 & Hc2).
    change (upload_files (Some (f :: fs)) s) with (upload_files (Some fs) (upload_one f s)).
    split; [done|]. split; [|split].
    + intros j r Hr. by apply Hk2, Hk1.
    + intros j r Hr Hnone.
      destruct (files (db (upload_one f s)) !! j) as [r1|] eqn:H1.
      * pose proof (Hk2 _ _ H1) as Hr'. rewrite Hr in Hr'. injection Hr' as ->.
        by apply (Hn1 j).
      * by apply (Hn2 j).
    + lia.
Qed.

(** ** The page *)

Lemma select_grid_columns l :
  select_columns grid_columns (mkframe summary_columns (summary_row <$> l)) =
    Ok (mkframe grid_columns (take 4 <$> (summary_row <$> l))).
Proof.
  unfold select_columns. cbn [columns data].
  change (map_result (fun label => column_index label summary_columns) grid_columns)
    with (@Ok (list nat) [0; 1; 2; 3]%nat).
  cbn [bind]. rewrite <- list_fmap_compose.
  rewrite (map_result_fmap _ _ (take 4 ∘ summary_row)); [reflexivity|].
  apply Forall_forall. intros e _. reflexivity.
Qed.

(** X13.  The grid.  When the server answers and the stored sizes are
    within the [INT] column, [file_list] asks [render.DataGrid], with
    [selection_mode="single"], for a grid of the columns id, name,
    date_created and size and the rows of [get_all_files] without their
    has_memo cell, which the page computes and never shows.  A shiny that
    does not know the mode ["single"] raises [ValueError] there, so that
    [file_list] never hands a grid over.  When the server rejects the
    query, [file_list] raises what the server raised.  The database is
    never changed. *)
Theorem file_list_asks_for_four_columns d :
  (accepts SelectSummaries d ->
   sizes_are_int d ->
   exists listed,
     get_all_files d = (Ok listed, d) /\
     length (data listed) = size (files d) /\
     file_list d =
       (render_DataGrid
          (mkframe ["id"; "name"; "date_created"; "size"]%string (take 4 <$> data listed))
          "single", d) /\
     (valid_selection_mode "single" = false -> file_list d = (Raise ValueError, d))) /\
  (forall e, server_fault SelectSummaries d = Some e -> file_list d = (Raise e, d)) /\
  (file_list d).2 = d.
Proof.
  assert (accepts SelectSummaries d -> sizes_are_int d ->
          file_list d =
            (render_DataGrid
               (mkframe grid_columns
                  (take 4 <$> (summary_row <$>
                     order_by_date_created_desc (map_to_list (files d)))))
               "single", d)) as Hok.
  { intros Ha Hd. unfold file_list, bind_prog, lift.
    rewrite get_all_files_accepted by done. rewrite select_grid_columns.
    by destruct (render_DataGrid _ _). }
  split; [|split].
  - intros Ha Hd. rewrite get_all_files_accepted by done.
    eexists. split; [reflexivity|]. cbn [data]. split.
    { rewrite !length_fmap. rewrite (Permutation_length (order_by_perm _)).
      apply length_map_to_list. }
    split; [by apply Hok|]. intros Hmode. rewrite Hok by done.
    unfold render_DataGrid. by rewrite Hmode.
  - intros e He. unfold file_list, bind_prog. by rewrite (get_all_files_rejected _ e).
  - unfold file_list, bind_prog, lift.
    pose proof (get_all_files_reads d) as Hr.
    destruct (get_all_files d) as [[df|e] d1]; cbn in Hr; subst d1; [|done].
    destruct (select_columns grid_columns df); [|done].
    by destruct (render_DataGrid _ _).
Qed.

Lemma replace_newlines_app a b :
  replace_newlines (a ++ b) = replace_newlines a ++ replace_newlines b.
Proof.
  induction a as [|c a IH]; [done|]. cbn [app replace_newlines]. rewrite IH.
  destruct (c =? newline); [by rewrite <- app_assoc|done].
Qed.

(** X14.  [content.replace('\n', '<br>')] as the viewer uses it: no
    line feed is left; every line feed became the four characters of
    ["<br>"], so the text is longer by three per line feed; a text
    without line feeds is unchanged; the replacement goes through
    concatenation; and every other character of the content, markup
    characters included, is in the output as it was. *)
Theorem replace_newlines_properties (s : list Z) :
  (newline ∉ replace_newlines s) /\
  length (replace_newlines s) = (length s + 3 * length (filter (fun c => c = newline) s))%nat /\
  (newline ∉ s -> replace_newlines s = s) /\
  (forall a b, s = a ++ b -> replace_newlines s = replace_newlines a ++ replace_newlines b) /\
  (forall c, c ∈ s -> c <> newline -> c ∈ replace_newlines s).
Proof.
  split; [|split; [|split; [|split]]].
  - induction s as [|c s IH]; cbn [replace_newlines]; [apply not_elem_of_nil|].
    destruct (Z.eqb_spec c newline) as [->|Hc].
    + rewrite not_elem_of_app. split; [|done].
      unfold br, newline. rewrite !not_elem_of_cons.
      repeat split; try done. apply not_elem_of_nil.
    + rewrite not_elem_of_cons. split; [congruence|done].
  - induction s as [|c s IH]; [done|]. cbn [replace_newlines].
    destruct (Z.eqb_spec c newline) as [->|Hc].
    + rewrite filter_cons_True by done. rewrite length_app, IH. cbn. lia.
    + rewrite filter_cons_False by done. cbn. rewrite IH. lia.
  - induction s as [|c s IH]; [done|]. rewrite not_elem_of_cons. intros [Hc Hs].
    cbn [replace_newlines]. destruct (Z.eqb_spec c newline) as [->|_]; [done|].
    by rewrite IH.
  - intros a b ->. apply replace_newlines_app.
  - intros c Hc Hn. induction s as [|c' s IH]; [by apply elem_of_nil in Hc|].
    cbn [replace_newlines]. apply elem_of_cons in Hc as [->|Hc].
    + destruct (Z.eqb_spec c' newline); [done|]. apply elem_of_cons. by left.
    + destruct (c' =? newline).
      * apply elem_of_app. right. by apply IH.
      * apply elem_of_cons. right. by apply IH.
Qed.




(** ** More on UTF-8 *)

Lemma lor_below a b n :
  0 <= n -> 0 <= a < 2 ^ n -> 0 <= b < 2 ^ n -> 0 <= Z.lor a b < 2 ^ n.
Proof.
  intros Hn Ha Hb. split; [apply Z.lor_nonneg; lia|].
  destruct (decide (Z.lor a b = 0)) as [->|Hz]; [lia|].
  assert (0 < Z.lor a b) by (pose proof (proj2 (Z.lor_nonneg a b) ltac:(lia)); lia).
  apply Z.log2_lt_pow2; [done|]. rewrite Z.log2_lor by lia.
  destruct (decide (a = 0)) as [->|]; destruct (decide (b = 0)) as [->|].
  - exfalso. apply Hz. reflexivity.
  - rewrite Z.max_r by (cbn; apply Z.log2_nonneg). apply Z.log2_lt_pow2; lia.
  - rewrite Z.max_l by (cbn; apply Z.log2_nonneg). apply Z.log2_lt_pow2; lia.
  - apply Z.max_lub_lt; apply Z.log2_lt_pow2; lia.
Qed.

Lemma continuation_byte x : 0 <= x -> 0 <= Z.lor 128 (Z.land x 63) < 256.
Proof.
  intros Hx. apply (lor_below _ _ 8); [lia|lia|].
  change 63 with (Z.ones 6). rewrite Z.land_ones by lia.
  pose proof (Z.mod_pos_bound x (2 ^ 6) ltac:(lia)). change (2 ^ 6) with 64 in *.
  change (2 ^ 8) with 256. lia.
Qed.

Lemma leading_byte tag x k :
  0 <= tag < 256 -> 0 <= x < 2 ^ k -> 0 <= k <= 8 -> 0 <= Z.lor tag x < 256.
Proof.
  intros Ht Hx Hk. apply (lor_below _ _ 8); [lia|done|].
  assert (2 ^ k <= 2 ^ 8) by (apply Z.pow_le_mono_r; lia). lia.
Qed.

Lemma encode_code_point_bytes c b :
  0 <= c < 1114112 ->
  encode_code_point c = Ok b ->
  Forall (fun x => 0 <= x < 256) b.
Proof.
  intros Hc. unfold encode_code_point.
  assert (forall k, 0 <= k -> 0 <= Z.shiftr c k) as Hshift
    by (intros; apply Z.shiftr_nonneg; lia).
  repeat case_match; intros [= <-]; repeat constructor;
    try (apply continuation_byte; auto with lia); try lia.
  all: first
    [ apply (leading_byte _ _ 5); [lia| |lia]; split; [auto with lia|];
      rewrite Z.shiftr_div_pow2 by lia;
      change (2 ^ 6) with 64; change (2 ^ 5) with 32;
      apply Z.div_lt_upper_bound; lia
    | apply (leading_byte _ _ 4); [lia| |lia]; split; [auto with lia|];
      rewrite Z.shiftr_div_pow2 by lia;
      change (2 ^ 12) with 4096; change (2 ^ 4) with 16;
      apply Z.div_lt_upper_bound; lia
    | apply (leading_byte _ _ 3); [lia| |lia]; split; [auto with lia|];
      rewrite Z.shiftr_div_pow2 by lia;
      change (2 ^ 18) with 262144; change (2 ^ 3) with 8;
      apply Z.div_lt_upper_bound; lia ].
Qed.

Lemma utf8_width_range c : 1 <= utf8_width c <= 4.
Proof. unfold utf8_width. repeat case_match; lia. Qed.

(** X17.  The bytes [create_file] and [update_file] count.  For a string
    that can be encoded, [content.encode('utf-8')] gives bytes, each from
    0 to 255; their number, which is the stored size, is at least the
    number of characters and at most four times that; a string of ASCII
    characters encodes to itself, so its size is its length; and the
    encoding of a concatenation is the concatenation of the encodings. *)
Theorem encode_utf8_bytes (s : list Z) b :
  encode_utf8 s = Ok b ->
  (Forall (fun c => 0 <= c < 1114112) s -> Forall (fun x => 0 <= x < 256) b) /\
  (length s <= length b <= 4 * length s)%nat /\
  (Forall (fun c => 0 <= c < 128) s -> b = s) /\
  (forall s1 s2, s = s1 ++ s2 ->
     exists b1 b2, encode_utf8 s1 = Ok b1 /\ encode_utf8 s2 = Ok b2 /\ b = b1 ++ b2).
Proof.
  revert b. induction s as [|c s IH]; intros b Hb.
  - injection Hb as <-. split; [done|]. split; [cbn; lia|]. split; [done|].
    intros s1 s2 Hs. symmetry in Hs. apply app_eq_nil in Hs as [-> ->].
    by exists [], [].
  - cbn [encode_utf8] in Hb.
    destruct (encode_code_point c) as [b1|] eqn:E1; [|discriminate].
    destruct (encode_utf8 s) as [b2|] eqn:E2; [|discriminate].
    injection Hb as <-. destruct (IH b2 eq_refl) as (Hbytes & Hlen & Hascii & Happ).
    pose proof (encode_code_point_len _ _ E1) as Hw. unfold len in Hw.
    pose proof (utf8_width_range c) as Hr.
    split; [|split; [|split]].
    + intros Hs. inversion Hs as [|? ? Hc Hs']; subst. apply Forall_app. split.
      * by eapply encode_code_point_bytes.
      * by apply Hbytes.
    + rewrite length_app. cbn [length]. lia.
    + intros Hs. inversion Hs as [|? ? Hc Hs']; subst. rewrite (Hascii Hs').
      unfold encode_code_point in E1. destruct (Z.ltb_spec c 128); [|lia].
      by injection E1 as <-.
    + intros s1 s2 Hs. destruct s1 as [|c1 s1].
      * cbn in Hs. subst s2. exists [], (b1 ++ b2). split; [done|]. split; [|done].
        cbn [encode_utf8]. by rewrite E1, E2.
      * injection Hs as <- ->. destruct (Happ s1 s2 eq_refl) as (b1' & b2' & H1 & H2 & ->).
        exists (b1 ++ b1'), b2'. split; [|split; [done|by rewrite app_assoc]].
        cbn [encode_utf8]. by rewrite E1, H1.
Qed.

(** ** More on size formatting *)

Lemma spec_format_units n :
  n <> 0 ->
  spec_format (mkfloat n 0) =
    (format_float_1f (mkfloat n (10 * unit_index n)) ++ unit_name (unit_index n))%string.
Proof.
  intros Hn. unfold spec_format. cbn [num].
  destruct (Z.eqb_spec n 0) as [|_]; [done|].
  unfold unit_index. cbn [spec_scale num shift].
  change (1024 * 2 ^ 0) with 1024. change (1024 * 2 ^ (0 + 10)) with 1048576.
  change (1024 * 2 ^ (0 + 10 + 10)) with 1073741824.
  destruct (Z.leb_spec 1024 n), (Z.ltb_spec n 1024); try lia; [|reflexivity].
  destruct (Z.leb_spec 1048576 n), (Z.ltb_spec n 1048576); try lia; [|reflexivity].
  destruct (Z.leb_spec 1073741824 n), (Z.ltb_spec n 1073741824); try lia; reflexivity.
Qed.

(** X18.  The unit by thresholds.  For every size other than 0 that a
    [float] holds exactly (in absolute value below [2 ^ 53]),
    [_format_file_size] prints the size divided by 1024 zero, one, two or
    three times, to one decimal place, with the unit B below 1024, KB
    below [1024 ^ 2], MB below [1024 ^ 3] and GB from there on: there is
    no unit above GB, and a negative size is printed in B. *)
Theorem format_file_size_units n :
  - 2 ^ 53 < n < 2 ^ 53 ->
  n <> 0 ->
  _format_file_size n =
    Ok (format_float_1f (mkfloat n (10 * unit_index n)) ++ unit_name (unit_index n))%string /\
  (n < 1024 -> unit_name (unit_index n) = "B"%string) /\
  (1024 <= n < 1024 ^ 2 -> unit_name (unit_index n) = "KB"%string) /\
  (1024 ^ 2 <= n < 1024 ^ 3 -> unit_name (unit_index n) = "MB"%string) /\
  (1024 ^ 3 <= n -> unit_name (unit_index n) = "GB"%string).
Proof.
  intros Hr Hn. split.
  - rewrite (format_file_size_is_spec_format n (mkfloat n 0)) by (by apply int_to_float_small).
    by rewrite spec_format_units.
  - change (1024 ^ 2) with 1048576. change (1024 ^ 3) with 1073741824. unfold unit_index.
    repeat split; intros; repeat case_match; try reflexivity; lia.
Qed.

Lemma round_half_even_whole a : round_half_even (a * 10) 1 = a * 10.
Proof.
  unfold round_half_even. rewrite Z.div_1_r, Z.mod_1_r. reflexivity.
Qed.

Lemma string_app_assoc (a b c : string) : ((a ++ b) ++ c = a ++ (b ++ c))%string.
Proof.
  induction a as [|x a IH]; [done|].
  change (String x ((a ++ b) ++ c) = String x (a ++ (b ++ c)))%string. by rewrite IH.
Qed.

(** X19.  Sizes below 1024 are printed whole.  For every size from 1
    to 1023 [_format_file_size] gives its decimal digits followed by
    [".0B"], and for a negative size (above [- 2 ^ 53]) a minus sign, the
    digits of its absolute value and [".0B"]. *)
Theorem format_file_size_below_1024 n :
  - 2 ^ 53 < n < 1024 ->
  n <> 0 ->
  _format_file_size n =
    Ok (sign (mkfloat n 0) ++ decimal (Z.abs n) ++ ".0B")%string /\
  sign (mkfloat n 0) = (if n <? 0 then "-"%string else ""%string).
Proof.
  intros Hr Hn. split; [|reflexivity].
  assert (2 ^ 53 = 9007199254740992) as Hp by reflexivity.
  rewrite (format_file_size_is_spec_format n (mkfloat n 0))
    by (apply int_to_float_small; lia).
  rewrite spec_format_units by done. unfold unit_index.
  destruct (Z.ltb_spec n 1024); [|lia]. cbn [unit_name Z.eqb Z.mul].
  unfold format_float_1f. cbn [num shift]. change (2 ^ 0) with 1.
  rewrite round_half_even_whole. rewrite Z.div_mul, Z.mod_mul by lia.
  change (decimal 0) with "0"%string.
  unfold sign. cbn [num]. f_equal. rewrite !string_app_assoc. reflexivity.
Qed.

Lemma round_half_even_10240 a k :
  0 < k -> 20479 * k <= 2 * a -> a < 10240 * k -> round_half_even a k = 10240.
Proof.
  intros Hk Hlo Hhi. unfold round_half_even.
  pose proof (Z.div_mod a k ltac:(lia)) as Hdm.
  pose proof (Z.mod_pos_bound a k Hk) as Hr.
  assert (a / k = 10239) as Hq by nia.
  rewrite Hq in *. change (Z.odd 10239) with true. rewrite andb_true_r.
  destruct (Z.ltb_spec k (2 * (a mod k))) as [|Hle]; [reflexivity|].
  destruct (Z.eqb_spec (2 * (a mod k)) k) as [|Hne]; [reflexivity|]. lia.
Qed.

(** X20.  Just under a unit.  The loop stops on the value before it is
    rounded, so a size within a twentieth of a KB under 1 MB is printed
    ["1024.0KB"], not ["1.0MB"], and a size within a twentieth of a MB
    under 1 GB is printed ["1024.0MB"]. *)
Theorem format_file_size_just_under_a_unit n :
  (1048525 <= n < 1048576 -> _format_file_size n = Ok "1024.0KB"%string) /\
  (1073689396 <= n < 1073741824 -> _format_file_size n = Ok "1024.0MB"%string).
Proof.
  assert (2 ^ 53 = 9007199254740992) as Hp by reflexivity.
  split; intros Hn;
    rewrite (format_file_size_is_spec_format n (mkfloat n 0))
      by (apply int_to_float_small; lia);
    rewrite spec_format_units by lia; unfold unit_index;
    repeat (match goal with |- context [?a <? ?b] => destruct (Z.ltb_spec a b); try lia end);
    unfold format_float_1f, sign; cbn [num shift];
    destruct (Z.ltb_spec n 0); try lia; rewrite Z.abs_eq by lia.
  - change (2 ^ (10 * 1)) with 1024. rewrite round_half_even_10240 by lia. reflexivity.
  - change (2 ^ (10 * 2)) with 1048576. rewrite round_half_even_10240 by lia. reflexivity.
Qed.

(** ** Strings that cannot be encoded *)

(** X21.  A content with a lone surrogate (a code point from [0xD800]
    to [0xDFFF]) cannot be stored: [create_file] and [update_file] raise
    [UnicodeEncodeError] and leave the database as it was, for every
    server, as no statement is sent; and these are the only contents the
    two calls refuse before they reach the server. *)
Theorem surrogates_are_refused (content : list Z) :
  (encodable content <-> forall c, c ∈ content -> ~ (55296 <= c <= 57343)) /\
  (~ encodable content ->
   forall d,
     (forall name owner memo,
         create_file name content owner memo d = (Raise UnicodeEncodeError, d)) /\
     (forall file_id name memo,
         update_file file_id name (Some content) memo d = (Raise UnicodeEncodeError, d))) /\
  (encodable content -> exists b, encode_utf8 content = Ok b).
Proof.
  split; [|split].
  - unfold encodable. rewrite Forall_forall. unfold is_surrogate.
    split; intros H c Hc; specialize (H c Hc).
    + apply andb_false_iff in H as [H|H]; [apply Z.leb_gt in H|apply Z.leb_gt in H]; lia.
    + apply andb_false_iff.
      destruct (Z.leb_spec 55296 c); [right; apply Z.leb_gt; lia|by left].
  - intros He d. split; intros.
    + by apply create_file_unencodable.
    + by apply update_file_unencodable.
  - apply encode_utf8_encodable.
Qed.
End Server.

(** ** The theorems at the sample server *)

Lemma sample_lookup file_id r :
  files sample_db !! file_id = Some r ->
  (file_id = 1 /\ r = abc_row) \/ (file_id = 2 /\ r = todo_row).
Proof.
  unfold sample_db, sample_files. cbn [files].
  rewrite lookup_insert. case_decide as H2; [intros [= <-]; right; done|].
  rewrite lookup_insert. case_decide as H1; [intros [= <-]; left; done|].
  rewrite lookup_empty. discriminate.
Qed.

Lemma sample_sizes_match : sizes_match sample_db.
Proof.
  intros file_id r c Hr Hc.
  destruct (sample_lookup _ _ Hr) as [[_ ->]|[_ ->]]; injection Hc as <-; reflexivity.
Qed.

Lemma sample_sizes_are_int : sizes_are_int sample_db.
Proof.
  intros file_id r Hr.
  destruct (sample_lookup _ _ Hr) as [[_ ->]|[_ ->]]; unfold int_column; simpl; lia.
Qed.

Lemma stored_size_witness :
  encodable [233; 8364] /\
  accepts no_fault (InsertFile [110] [233; 8364] None None (utf8_byte_length [233; 8364]))
          sample_db /\
  (exists file_id d' r,
      create_file no_fault ascii_ci [110] [233; 8364] None None sample_db = (Ok file_id, d') /\
      files d' !! file_id = Some r /\
      File.content r = Some [233; 8364] /\
      File.size r = utf8_byte_length [233; 8364]) /\
  (exists d' r,
      update_file no_fault ascii_ci 1 None (Some [233; 8364]) None sample_db = (Ok true, d') /\
      files d' !! 1 = Some r /\
      File.content r = Some [233; 8364] /\
      File.size r = utf8_byte_length [233; 8364]) /\
  sizes_match (delete_file no_fault ascii_ci 1 sample_db).2.
Proof.
  assert (encodable [233; 8364]) as He by (repeat constructor).
  pose proof (stored_size_is_utf8_byte_length no_fault ascii_ci) as (Hc & Hu & Hi).
  split; [exact He|]. split; [reflexivity|]. split; [|split].
  - apply Hc; [exact He|reflexivity].
  - apply (Hu 1 None [233; 8364] None sample_db abc_row); [exact He|reflexivity|reflexivity].
  - apply (Hi sample_db sample_sizes_match).
Defined.

Lemma create_then_get_witness :
  encodable [120] /\
  accepts no_fault (InsertFile [110] [120] (Some [111]) None (utf8_byte_length [120]))
          sample_db /\
  exists file_id d',
    create_file no_fault ascii_ci [110] [120] (Some [111]) None sample_db = (Ok file_id, d') /\
    (accepts no_fault (SelectFile file_id) d' ->
     exists record : gmap string value,
       get_file no_fault ascii_ci file_id d' = (Ok (Some record), d') /\
       record !! "name"%string = Some (Text [110]) /\
       record !! "content"%string = Some (Text [120]) /\
       record !! "owner"%string = Some (Text [111]) /\
       record !! "memo"%string = Some Null).
Proof.
  assert (encodable [120]) as He by (repeat constructor).
  split; [exact He|]. split; [reflexivity|].
  apply (create_then_get_round_trip no_fault ascii_ci [110] [120] (Some [111]) None sample_db He).
  reflexivity.
Defined.

Lemma update_content_witness :
  files sample_db !! 1 = Some abc_row /\
  exists r',
    files (update_file no_fault ascii_ci 1 None (Some [233]) None sample_db).2 !! 1 = Some r' /\
    File.name r' = [97; 98; 99] /\
    File.owner r' = None /\
    File.memo r' = None /\
    File.content r' = Some [233] /\
    File.size r' = 2 /\
    File.date_modified r' = 30.
Proof.
  split; [reflexivity|].
  destruct (update_content_frame no_fault ascii_ci 1 [233] sample_db abc_row
              (update_file no_fault ascii_ci 1 None (Some [233]) None sample_db).1
              (update_file no_fault ascii_ci 1 None (Some [233]) None sample_db).2)
    as (_ & r' & Hr & Hn & Ho & Hm & _ & Hok).
  - reflexivity.
  - apply surjective_pairing.
  - destruct Hok as (_ & Hc & Hz & _ & Hdm & _); [repeat constructor|reflexivity|].
    exists r'. split; [exact Hr|]. split; [exact Hn|]. split; [exact Ho|].
    split; [exact Hm|]. split; [exact Hc|]. split; [exact Hz|].
    apply Hdm. left. discriminate.
Defined.

Lemma delete_then_absent_witness :
  accepts no_fault (DeleteFile 1) sample_db /\
  exists removed d',
    delete_file no_fault ascii_ci 1 sample_db = (Ok removed, d') /\
    (removed = true <-> is_Some (files sample_db !! 1)) /\
    files d' !! 1 = None /\
    (forall j, j <> 1 -> files d' !! j = files sample_db !! j) /\
    (accepts no_fault (SelectFile 1) d' -> get_file no_fault ascii_ci 1 d' = (Ok None, d')) /\
    (accepts no_fault (DeleteFile 1) d' -> delete_file no_fault ascii_ci 1 d' = (Ok false, d')).
Proof.
  split; [reflexivity|].
  apply (delete_then_absent no_fault ascii_ci 1 sample_db). reflexivity.
Defined.

Lemma failed_statement_witness :
  gone_away (DeleteFile 1) sample_db = Some (DatabaseError 2006) /\
  delete_file gone_away ascii_ci 1 sample_db = (Raise (DatabaseError 2006), sample_db) /\
  create_file gone_away ascii_ci [110] [120] None None sample_db =
    (Raise (DatabaseError 2006), sample_db).
Proof.
  pose proof (failed_statement_changes_nothing gone_away ascii_ci sample_db (DatabaseError 2006))
    as (Hc & _ & _ & _ & Hd & _).
  split; [reflexivity|]. split.
  - apply Hd. reflexivity.
  - apply Hc; [repeat constructor|reflexivity].
Defined.

Lemma upload_files_witness :
  [mkinfo [97] [120]; mkinfo [98] []; mkinfo [99] [121]] =
    [mkinfo [97] [120]] ++ mkinfo [98] [] :: [mkinfo [99] [121]] /\
  upload_files no_fault ascii_ci sample_read_text
      (Some [mkinfo [97] [120]; mkinfo [98] []; mkinfo [99] [121]])
      (mksession sample_db []) =
    upload_files no_fault ascii_ci sample_read_text (Some [mkinfo [99] [121]])
      (upload_one no_fault ascii_ci sample_read_text (mkinfo [98] [])
         (upload_files no_fault ascii_ci sample_read_text (Some [mkinfo [97] [120]])
            (mksession sample_db []))) /\
  notifications
      (upload_files no_fault ascii_ci sample_read_text
         (Some [mkinfo [97] [120]; mkinfo [98] []; mkinfo [99] [121]])
         (mksession sample_db [])) =
    [Success [97]; Error [98] UnicodeDecodeError; Success [99]].
Proof.
  split; [reflexivity|].
  destruct (upload_files_reports_each_file no_fault ascii_ci sample_read_text
              [mkinfo [97] [120]; mkinfo [98] []; mkinfo [99] [121]]
              (mksession sample_db [])) as [_ Hstep].
  destruct (Hstep [mkinfo [97] [120]] (mkinfo [98] []) [mkinfo [99] [121]] eq_refl)
    as [Hrest _].
  split; [exact Hrest|]. reflexivity.
Defined.

Lemma format_file_size_witness :
  0 <= 1500000 < 2 ^ 1024 - 2 ^ 970 /\
  _format_file_size 1500000 = Ok "1.4MB"%string /\
  exists x,
    int_to_float 1500000 = Ok x /\
    (1500000 < 2 ^ 53 -> x = mkfloat 1500000 0) /\
    _format_file_size 1500000 = Ok (spec_format x).
Proof.
  assert (0 <= 1500000 < 2 ^ 1024 - 2 ^ 970) as Hn by (split; [discriminate|reflexivity]).
  split; [exact Hn|]. split; [reflexivity|].
  exact (proj1 (format_file_size_below_overflow 1500000 Hn)).
Defined.

Lemma get_all_files_witness :
  accepts no_fault SelectSummaries sample_db /\
  sizes_are_int sample_db /\
  exists df l,
    get_all_files no_fault ascii_ci sample_db = (Ok df, sample_db) /\
    columns df = ["id"; "name"; "date_created"; "size"; "has_memo"]%string /\
    data df = summary_row <$> l /\
    l ≡ₚ map_to_list (files sample_db) /\
    (forall file_id r, (file_id, r) ∈ l <-> files sample_db !! file_id = Some r) /\
    StronglySorted newer_first l /\
    (files sample_db = ∅ -> data df = []).
Proof.
  split; [reflexivity|]. split; [exact sample_sizes_are_int|].
  apply (get_all_files_lists_every_row no_fault ascii_ci sample_db);
    [reflexivity|exact sample_sizes_are_int].
Defined.

Lemma search_files_witness :
  forallb plain_char [116; 79] = true /\
  accepts no_fault (SearchFiles ([percent] ++ [116; 79] ++ [percent])) sample_db /\
  (search_files no_fault ascii_ci [116; 79] sample_db).1 =
    Ok (mkframe ["id"; "name"; "date_created"; "size"]%string
          [[Int 2; Text [84; 111; 100; 111]; Timestamp 20; Text [53; 46; 48; 66]]]) /\
  exists df l,
    search_files no_fault ascii_ci [116; 79] sample_db = (Ok df, sample_db) /\
    data df = found_row <$> l /\
    l ≡ₚ filter (fun e => mentions ascii_ci [116; 79] e = true)
           (map_to_list (files sample_db)).
Proof.
  split; [reflexivity|]. split; [reflexivity|]. split; [reflexivity|].
  destruct (search_files_finds_plain_term no_fault ascii_ci [116; 79] sample_db)
    as (df & l & Hs & _ & Hd & Hl & _);
    [reflexivity|reflexivity|exact sample_sizes_are_int|].
  exists df, l. repeat split; assumption.
Defined.

(** C6, the failing input: the term ["_"] finds both sample files, and
    neither their names nor their contents hold an underscore. *)
Lemma search_files_underscore :
  (search_files no_fault ascii_ci [underscore] sample_db).1 =
    Ok (mkframe ["id"; "name"; "date_created"; "size"]%string
          [[Int 2; Text [84; 111; 100; 111]; Timestamp 20; Text [53; 46; 48; 66]];
           [Int 1; Text [97; 98; 99]; Timestamp 10; Text [51; 46; 48; 66]]]) /\
  files sample_db !! 1 = Some abc_row /\
  files sample_db !! 2 = Some todo_row /\
  mentions ascii_ci [underscore] (1, abc_row) = false /\
  mentions ascii_ci [underscore] (2, todo_row) = false.
Proof. repeat split; reflexivity. Qed.

(** ** The further theorems at the sample server *)

Lemma sample_ids_below_counter : ids_below_counter sample_db.
Proof.
  intros file_id r Hr.
  destruct (sample_lookup _ _ Hr) as [[-> _]|[-> _]]; cbn; lia.
Qed.

Lemma create_file_adds_one_row_witness :
  ids_below_counter sample_db /\
  encodable [120] /\
  exists d',
    create_file no_fault ascii_ci [110] [120] None None sample_db = (Ok 3, d') /\
    files sample_db !! 3 = None /\
    files d' !! 3 = Some (File.mk [110] (Some [120]) 30 30 None None 1) /\
    size (files d') = 3%nat.
Proof.
  assert (encodable [120]) as He by (repeat constructor).
  split; [exact sample_ids_below_counter|]. split; [exact He|].
  destruct (create_file_adds_one_row no_fault ascii_ci [110] [120] None None sample_db
              sample_ids_below_counter He eq_refl) as (d' & Hc & Hf & Hn & _ & Hs & _).
  exists d'. split; [exact Hc|]. split; [exact Hf|]. split; [exact Hn|].
  rewrite Hs. reflexivity.
Defined.

Lemma create_file_ids_increase_witness :
  create_file no_fault ascii_ci [110] [120] None None sample_db =
    (Ok 3, (create_file no_fault ascii_ci [110] [120] None None sample_db).2) /\
  3 < 4.
Proof.
  split; [reflexivity|].
  apply (create_file_ids_increase no_fault ascii_ci [110] [120] None None sample_db 3
           (create_file no_fault ascii_ci [110] [120] None None sample_db).2
           [CallDelete 3; CallList] [111] [121] None None 4
           (create_file no_fault ascii_ci [111] [121] None None
              (run_all no_fault ascii_ci [CallDelete 3; CallList]
                 (create_file no_fault ascii_ci [110] [120] None None sample_db).2)).2);
    reflexivity.
Defined.

Lemma deleted_id_stays_absent_witness :
  ids_below_counter sample_db /\
  files (run_all no_fault ascii_ci [CallCreate [110] [120] None None; CallSearch [110]]
           (delete_file no_fault ascii_ci 1 sample_db).2) !! 1 = None.
Proof.
  split; [exact sample_ids_below_counter|].
  apply (deleted_id_stays_absent no_fault ascii_ci 1 sample_db
           (delete_file no_fault ascii_ci 1 sample_db).2
           [CallCreate [110] [120] None None; CallSearch [110]]
           sample_ids_below_counter).
  reflexivity.
Defined.

Lemma update_then_get_witness :
  files sample_db !! 1 = Some abc_row /\
  exists d',
    update_file no_fault ascii_ci 1 (Some [110]) None (Some [109]) sample_db = (Ok true, d') /\
    exists record : gmap string value,
      get_file no_fault ascii_ci 1 d' = (Ok (Some record), d') /\
      record !! "name"%string = Some (Text [110]) /\
      record !! "content"%string = Some (Text [120; 121; 122]) /\
      record !! "memo"%string = Some (Text [109]) /\
      record !! "size"%string = Some (Int 3).
Proof.
  split; [reflexivity|].
  destruct (update_then_get no_fault ascii_ci 1 (Some [110]) None (Some [109]) sample_db abc_row)
    as (d' & Hu & Hg); [reflexivity|exact I|discriminate|reflexivity|].
  exists d'. split; [exact Hu|].
  destruct (Hg eq_refl) as (record & Hr & _ & Hn & Hc & Hm & Hs & _).
  exists record. repeat split; assumption.
Defined.

Lemma missing_id_is_reported_witness :
  files sample_db !! 7 = None /\
  get_file no_fault ascii_ci 7 sample_db = (Ok None, sample_db) /\
  update_file no_fault ascii_ci 7 (Some [110]) None None sample_db = (Ok false, sample_db) /\
  delete_file no_fault ascii_ci 7 sample_db = (Ok false, sample_db).
Proof.
  destruct (missing_id_is_reported no_fault ascii_ci 7 sample_db eq_refl) as (Hg & Hu & Hd).
  split; [reflexivity|]. split; [exact (Hg eq_refl)|]. split; [|exact (Hd eq_refl)].
  apply Hu; [exact I|discriminate|reflexivity].
Defined.

Lemma update_file_frame_witness :
  files sample_db !! 2 = Some todo_row /\
  exists r',
    files (update_file no_fault ascii_ci 2 (Some [110]) None None sample_db).2 !! 2 = Some r' /\
    File.owner r' = None /\
    File.content r' = Some [233; 8364] /\
    File.size r' = 5 /\
    File.memo r' = Some [109].
Proof.
  split; [reflexivity|].
  destruct (update_file_frame no_fault ascii_ci 2 (Some [110]) None None sample_db todo_row
              (update_file no_fault ascii_ci 2 (Some [110]) None None sample_db).1
              (update_file no_fault ascii_ci 2 (Some [110]) None None sample_db).2)
    as (_ & r' & Hr & Ho & _ & _ & Hc & Hm & _).
  - reflexivity.
  - apply surjective_pairing.
  - exists r'. destruct (Hc eq_refl) as [Hc1 Hc2]. repeat split; try assumption.
    exact (Hm eq_refl).
Defined.

Lemma search_files_rows_are_listed_witness :
  accepts no_fault (SearchFiles ([percent] ++ [underscore] ++ [percent])) sample_db /\
  accepts no_fault SelectSummaries sample_db /\
  sizes_are_int sample_db /\
  exists found listed,
    search_files no_fault ascii_ci [underscore] sample_db = (Ok found, sample_db) /\
    get_all_files no_fault ascii_ci sample_db = (Ok listed, sample_db) /\
    (length (data found) <= length (data listed))%nat.
Proof.
  split; [reflexivity|]. split; [reflexivity|]. split; [exact sample_sizes_are_int|].
  destruct (search_files_rows_are_listed no_fault ascii_ci [underscore] sample_db
              eq_refl eq_refl sample_sizes_are_int)
    as (found & listed & l & Hs & Hl & _ & _ & _ & _ & _ & Hlen).
  exists found, listed. repeat split; assumption.
Defined.

Lemma sample_creation_times_differ i j ri rj :
  files sample_db !! i = Some ri -> files sample_db !! j = Some rj ->
  File.date_created ri = File.date_created rj -> i = j.
Proof.
  intros Hi Hj.
  destruct (sample_lookup _ _ Hi) as [[-> ->]|[-> ->]];
    destruct (sample_lookup _ _ Hj) as [[-> ->]|[-> ->]]; cbn; intros; lia.
Qed.

Lemma search_files_empty_term_witness :
  accepts no_fault (SearchFiles ([percent] ++ [] ++ [percent])) sample_db /\
  accepts no_fault SelectSummaries sample_db /\
  sizes_are_int sample_db /\
  exists found listed,
    search_files no_fault ascii_ci [] sample_db = (Ok found, sample_db) /\
    get_all_files no_fault ascii_ci sample_db = (Ok listed, sample_db) /\
    data found ≡ₚ take 4 <$> data listed /\
    data found = take 4 <$> data listed.
Proof.
  split; [reflexivity|]. split; [reflexivity|]. split; [exact sample_sizes_are_int|].
  destruct (search_files_empty_term_lists_all no_fault ascii_ci sample_db
              eq_refl eq_refl sample_sizes_are_int)
    as (found & listed & lf & ll & Hs & Hl & _ & _ & _ & _ & _ & _ & Hp & He).
  exists found, listed. split; [exact Hs|]. split; [exact Hl|]. split; [exact Hp|].
  exact (He sample_creation_times_differ).
Defined.


Lemma upload_stores_nothing_witness :
  Forall (fun file_info => exists e, str_read_text (datapath file_info) = Raise e)
         [mkinfo [97] [120]; mkinfo [98] [121]] /\
  db (upload_files no_fault ascii_ci str_read_text
        (Some [mkinfo [97] [120]; mkinfo [98] [121]]) (mksession sample_db [])) = sample_db /\
  notifications (upload_files no_fault ascii_ci str_read_text
                   (Some [mkinfo [97] [120]; mkinfo [98] [121]]) (mksession sample_db [])) =
    [Error [97] AttributeError; Error [98] AttributeError].
Proof.
  assert (Forall (fun file_info => exists e, str_read_text (datapath file_info) = Raise e)
                 [mkinfo [97] [120]; mkinfo [98] [121]]) as Hall.
  { repeat constructor; exists AttributeError; reflexivity. }
  destruct (upload_stores_nothing_when_reading_raises no_fault ascii_ci str_read_text
              [mkinfo [97] [120]; mkinfo [98] [121]] (mksession sample_db []) Hall)
    as (Hdb & _).
  split; [exact Hall|]. split; [exact Hdb|]. reflexivity.
Defined.

Lemma upload_files_only_adds_witness :
  ids_below_counter sample_db /\
  (forall j r,
      files sample_db !! j = Some r ->
      files (db (upload_files no_fault ascii_ci sample_read_text
                   (Some [mkinfo [97] [120]; mkinfo [98] []; mkinfo [99] [121]])
                   (mksession sample_db []))) !! j = Some r) /\
  size (files (db (upload_files no_fault ascii_ci sample_read_text
                     (Some [mkinfo [97] [120]; mkinfo [98] []; mkinfo [99] [121]])
                     (mksession sample_db [])))) = 4%nat.
Proof.
  destruct (upload_files_only_adds no_fault ascii_ci sample_read_text
              [mkinfo [97] [120]; mkinfo [98] []; mkinfo [99] [121]]
              (mksession sample_db []) sample_ids_below_counter) as (_ & Hk & _ & _).
  split; [exact sample_ids_below_counter|]. split; [exact Hk|]. reflexivity.
Defined.

Lemma file_list_witness :
  accepts no_fault SelectSummaries sample_db /\
  sizes_are_int sample_db /\
  row_modes "single" = false /\
  file_list no_fault ascii_ci row_modes sample_db = (Raise ValueError, sample_db) /\
  file_list gone_away ascii_ci row_modes sample_db =
    (Raise (DatabaseError 2006), sample_db).
Proof.
  destruct (file_list_asks_for_four_columns no_fault ascii_ci row_modes sample_db)
    as (Hok & _).
  destruct (Hok eq_refl sample_sizes_are_int) as (listed & _ & _ & _ & Hraise).
  destruct (file_list_asks_for_four_columns gone_away ascii_ci row_modes sample_db)
    as (_ & Hbad & _).
  split; [reflexivity|]. split; [exact sample_sizes_are_int|]. split; [reflexivity|].
  split; [exact (Hraise eq_refl)|]. exact (Hbad (DatabaseError 2006) eq_refl).
Defined.

Lemma replace_newlines_witness :
  (newline ∉ [60; 98; 62]) /\
  replace_newlines [60; 98; 62] = [60; 98; 62] /\
  length (replace_newlines [97; 10; 98; 10]) = 10%nat /\
  60 ∈ replace_newlines [60; 98; 62].
Proof.
  assert (newline ∉ [60; 98; 62]) as Hn.
  { unfold newline. rewrite !not_elem_of_cons. repeat split; try discriminate.
    apply not_elem_of_nil. }
  destruct (replace_newlines_properties [60; 98; 62]) as (_ & _ & Hid & _ & Hin).
  destruct (replace_newlines_properties [97; 10; 98; 10]) as (_ & Hlen & _).
  split; [exact Hn|]. split; [exact (Hid Hn)|]. split; [rewrite Hlen; reflexivity|].
  apply Hin; [apply elem_of_cons; left; reflexivity|discriminate].
Defined.


Lemma encode_utf8_bytes_witness :
  encode_utf8 [233; 8364] = Ok [195; 169; 226; 130; 172] /\
  Forall (fun x => 0 <= x < 256) [195; 169; 226; 130; 172] /\
  (length ([233; 8364]%Z : list Z) <= length ([195; 169; 226; 130; 172]%Z : list Z)
   <= 4 * length ([233; 8364]%Z : list Z))%nat.
Proof.
  destruct (encode_utf8_bytes [233; 8364] [195; 169; 226; 130; 172] eq_refl)
    as (Hb & Hl & _).
  split; [reflexivity|]. split; [|exact Hl].
  apply Hb. repeat constructor; lia.
Defined.

Lemma format_file_size_units_witness :
  - 2 ^ 53 < 1500000 < 2 ^ 53 /\
  _format_file_size 1500000 =
    Ok (format_float_1f (mkfloat 1500000 20) ++ "MB")%string.
Proof.
  assert (- 2 ^ 53 < 1500000 < 2 ^ 53) as Hr by (split; reflexivity).
  split; [exact Hr|].
  exact (proj1 (format_file_size_units 1500000 Hr ltac:(discriminate))).
Defined.

Lemma format_file_size_below_1024_witness :
  - 2 ^ 53 < -7 < 1024 /\
  _format_file_size (-7) = Ok "-7.0B"%string.
Proof.
  assert (- 2 ^ 53 < -7 < 1024) as Hr by (split; reflexivity).
  split; [exact Hr|].
  exact (proj1 (format_file_size_below_1024 (-7) Hr ltac:(discriminate))).
Defined.

Lemma format_file_size_just_under_witness :
  1048525 <= 1048575 < 1048576 /\
  _format_file_size 1048575 = Ok "1024.0KB"%string.
Proof.
  assert (1048525 <= 1048575 < 1048576) as Hr by (split; [discriminate|reflexivity]).
  split; [exact Hr|].
  exact (proj1 (format_file_size_just_under_a_unit 1048575) Hr).
Defined.

Lemma surrogates_are_refused_witness :
  ~ encodable [97; 55357] /\
  create_file no_fault ascii_ci [110] [97; 55357] None None sample_db =
    (Raise UnicodeEncodeError, sample_db) /\
  update_file gone_away ascii_ci 1 None (Some [97; 55357]) None sample_db =
    (Raise UnicodeEncodeError, sample_db).
Proof.
  assert (~ encodable [97; 55357]) as Hn.
  { intros H.
    apply (proj1 (proj1 (surrogates_are_refused no_fault ascii_ci [97; 55357])) H 55357).
    - apply elem_of_cons. right. apply elem_of_cons. left. reflexivity.
    - split; discriminate. }
  split; [exact Hn|]. split.
  - exact (proj1 (proj1 (proj2 (surrogates_are_refused no_fault ascii_ci [97; 55357]))
                    Hn sample_db) [110] None None).
  - exact (proj2 (proj1 (proj2 (surrogates_are_refused gone_away ascii_ci [97; 55357]))
                    Hn sample_db) 1 None None).
Defined.
